(** * TaskTracker: the task / reminder / completion-log data flow

    A shallow embedding of [src/components/TaskTracker.tsx].

    Conventions of the embedding.
    - A JavaScript string is a [string] that holds the UTF-8 bytes of its
      code points; [Unicode.decode] gives the code points back.  The methods
      that look at code units ([includes], [slice] on the ASCII text of a
      random number) find in the bytes what they find in the code units of a
      string whose surrogates are paired.
    - A point in time is its time value, an integer number of milliseconds
      since the epoch ([Z]).  The fields [whenISO], [createdAt] and
      [timestamp] hold ISO strings written by [toISOString]; such a string
      and its time value determine each other, so the fields carry the time
      value.  A date that does not parse never reaches the lists: [submit]
      throws on it before a task is built.
    - Numbers are exact: the quotient of two integers is a rational ([Q]).
    - The clock, the random source and the user's replies are inputs of the
      handler that consults them; what a handler shows to the user comes back
      as a list of [Event]s. *)

From Stdlib Require Import ZArith NArith QArith Qround List String Ascii Bool.
From Stdlib Require Import Lia.
From Stdlib Require Import Permutation Sorted DecimalString.
Import ListNotations.

Local Open Scope string_scope.
Local Open Scope Z_scope.

(* ------------------------------------------------------------------ *)
(** ** Texts as code points *)
(* ------------------------------------------------------------------ *)
Module Unicode.
Local Open Scope N_scope.

Definition byte (a : ascii) : N := N_of_ascii a.

(** A byte that belongs to no well-formed sequence stands for itself, at a
    place past the last code point. *)
Definition raw (b : N) : N := 1114112 + b.

Definition continuation (b : N) : bool := (128 <=? b) && (b <=? 191).

(** The code point of a sequence of two, three and four bytes, when the
    sequence is well formed: the shortest for its code point, no surrogate,
    nothing past U+10FFFF. *)
Definition two (b0 b1 : N) : option N :=
  if (192 <=? b0) && (b0 <=? 223) && continuation b1 then
    let c := (b0 - 192) * 64 + (b1 - 128) in
    if 128 <=? c then Some c else None
  else None.

Definition three (b0 b1 b2 : N) : option N :=
  if (224 <=? b0) && (b0 <=? 239) && continuation b1 && continuation b2 then
    let c := (b0 - 224) * 4096 + (b1 - 128) * 64 + (b2 - 128) in
    if (2048 <=? c) && negb ((55296 <=? c) && (c <=? 57343)) then Some c
    else None
  else None.

Definition four (b0 b1 b2 b3 : N) : option N :=
  if (240 <=? b0) && (b0 <=? 247) && continuation b1 && continuation b2
     && continuation b3 then
    let c := (b0 - 240) * 262144 + (b1 - 128) * 4096 + (b2 - 128) * 64
             + (b3 - 128) in
    if (65536 <=? c) && (c <=? 1114111) then Some c else None
  else None.

(** The code points of a text. *)
Fixpoint decode (s : string) : list N :=
  match s with
  | EmptyString => []
  | String a0 s1 =>
      if byte a0 <? 128 then byte a0 :: decode s1
      else
        match s1 with
        | EmptyString => raw (byte a0) :: decode s1
        | String a1 s2 =>
            match two (byte a0) (byte a1) with
            | Some c => c :: decode s2
            | None =>
                match s2 with
                | EmptyString => raw (byte a0) :: decode s1
                | String a2 s3 =>
                    match three (byte a0) (byte a1) (byte a2) with
                    | Some c => c :: decode s3
                    | None =>
                        match s3 with
                        | EmptyString => raw (byte a0) :: decode s1
                        | String a3 s4 =>
                            match four (byte a0) (byte a1) (byte a2)
                                       (byte a3) with
                            | Some c => c :: decode s4
                            | None => raw (byte a0) :: decode s1
                            end
                        end
                    end
                end
            end
        end
  end.

Definition char (b : N) : ascii := ascii_of_N b.

(** The bytes of a code point. *)
Definition encodeOne (c : N) : string :=
  if c <? 128 then String (char c) EmptyString
  else if c <? 2048 then
    String (char (192 + c / 64)) (String (char (128 + c mod 64)) EmptyString)
  else if c <? 65536 then
    String (char (224 + c / 4096))
      (String (char (128 + (c / 64) mod 64))
         (String (char (128 + c mod 64)) EmptyString))
  else if c <? 1114112 then
    String (char (240 + c / 262144))
      (String (char (128 + (c / 4096) mod 64))
         (String (char (128 + (c / 64) mod 64))
            (String (char (128 + c mod 64)) EmptyString)))
  else String (char (c - 1114112)) EmptyString.

(** The text of a list of code points. *)
Fixpoint encode (l : list N) : string :=
  match l with
  | [] => EmptyString
  | c :: l' => (encodeOne c ++ encode l')%string
  end.

Definition inRanges (c : N) (ranges : list (N * N)) : bool :=
  existsb (fun r => (fst r <=? c) && (c <=? snd r)) ranges.

(** The simple lower-case mappings of the Unicode Character Database
    (version 14.0): [(first, last, step, image of first)] stands for the code
    points [first], [first + step], ... up to [last], each mapped as far from
    the image of [first] as it is from [first]. *)
Definition lowerRanges : list (N * N * N * N) :=
  [ (65, 90, 1, 97); (192, 214, 1, 224); (216, 222, 1, 248);
    (256, 302, 2, 257); (306, 310, 2, 307); (313, 327, 2, 314);
    (330, 374, 2, 331); (376, 376, 1, 255); (377, 381, 2, 378);
    (385, 385, 1, 595); (386, 388, 2, 387); (390, 390, 1, 596);
    (391, 391, 1, 392); (393, 394, 1, 598); (395, 395, 1, 396);
    (398, 398, 1, 477); (399, 399, 1, 601); (400, 400, 1, 603);
    (401, 401, 1, 402); (403, 403, 1, 608); (404, 404, 1, 611);
    (406, 406, 1, 617); (407, 407, 1, 616); (408, 408, 1, 409);
    (412, 412, 1, 623); (413, 413, 1, 626); (415, 415, 1, 629);
    (416, 420, 2, 417); (422, 422, 1, 640); (423, 423, 1, 424);
    (425, 425, 1, 643); (428, 428, 1, 429); (430, 430, 1, 648);
    (431, 431, 1, 432); (433, 434, 1, 650); (435, 437, 2, 436);
    (439, 439, 1, 658); (440, 440, 1, 441); (444, 444, 1, 445);
    (452, 452, 1, 454); (453, 453, 1, 454); (455, 455, 1, 457);
    (456, 456, 1, 457); (458, 458, 1, 460); (459, 475, 2, 460);
    (478, 494, 2, 479); (497, 497, 1, 499); (498, 500, 2, 499);
    (502, 502, 1, 405); (503, 503, 1, 447); (504, 542, 2, 505);
    (544, 544, 1, 414); (546, 562, 2, 547); (570, 570, 1, 11365);
    (571, 571, 1, 572); (573, 573, 1, 410); (574, 574, 1, 11366);
    (577, 577, 1, 578); (579, 579, 1, 384); (580, 580, 1, 649);
    (581, 581, 1, 652); (582, 590, 2, 583); (880, 882, 2, 881);
    (886, 886, 1, 887); (895, 895, 1, 1011); (902, 902, 1, 940);
    (904, 906, 1, 941); (908, 908, 1, 972); (910, 911, 1, 973);
    (913, 929, 1, 945); (931, 939, 1, 963); (975, 975, 1, 983);
    (984, 1006, 2, 985); (1012, 1012, 1, 952); (1015, 1015, 1, 1016);
    (1017, 1017, 1, 1010); (1018, 1018, 1, 1019); (1021, 1023, 1, 891);
    (1024, 1039, 1, 1104); (1040, 1071, 1, 1072); (1120, 1152, 2, 1121);
    (1162, 1214, 2, 1163); (1216, 1216, 1, 1231); (1217, 1229, 2, 1218);
    (1232, 1326, 2, 1233); (1329, 1366, 1, 1377); (4256, 4293, 1, 11520);
    (4295, 4295, 1, 11559); (4301, 4301, 1, 11565); (5024, 5103, 1, 43888);
    (5104, 5109, 1, 5112); (7312, 7354, 1, 4304); (7357, 7359, 1, 4349);
    (7680, 7828, 2, 7681); (7838, 7838, 1, 223); (7840, 7934, 2, 7841);
    (7944, 7951, 1, 7936); (7960, 7965, 1, 7952); (7976, 7983, 1, 7968);
    (7992, 7999, 1, 7984); (8008, 8013, 1, 8000); (8025, 8031, 2, 8017);
    (8040, 8047, 1, 8032); (8072, 8079, 1, 8064); (8088, 8095, 1, 8080);
    (8104, 8111, 1, 8096); (8120, 8121, 1, 8112); (8122, 8123, 1, 8048);
    (8124, 8124, 1, 8115); (8136, 8139, 1, 8050); (8140, 8140, 1, 8131);
    (8152, 8153, 1, 8144); (8154, 8155, 1, 8054); (8168, 8169, 1, 8160);
    (8170, 8171, 1, 8058); (8172, 8172, 1, 8165); (8184, 8185, 1, 8056);
    (8186, 8187, 1, 8060); (8188, 8188, 1, 8179); (8486, 8486, 1, 969);
    (8490, 8490, 1, 107); (8491, 8491, 1, 229); (8498, 8498, 1, 8526);
    (8544, 8559, 1, 8560); (8579, 8579, 1, 8580); (9398, 9423, 1, 9424);
    (11264, 11311, 1, 11312); (11360, 11360, 1, 11361);
    (11362, 11362, 1, 619); (11363, 11363, 1, 7549); (11364, 11364, 1, 637);
    (11367, 11371, 2, 11368); (11373, 11373, 1, 593); (11374, 11374, 1, 625);
    (11375, 11375, 1, 592); (11376, 11376, 1, 594); (11378, 11378, 1, 11379);
    (11381, 11381, 1, 11382); (11390, 11391, 1, 575);
    (11392, 11490, 2, 11393); (11499, 11501, 2, 11500);
    (11506, 11506, 1, 11507); (42560, 42604, 2, 42561);
    (42624, 42650, 2, 42625); (42786, 42798, 2, 42787);
    (42802, 42862, 2, 42803); (42873, 42875, 2, 42874);
    (42877, 42877, 1, 7545); (42878, 42886, 2, 42879);
    (42891, 42891, 1, 42892); (42893, 42893, 1, 613);
    (42896, 42898, 2, 42897); (42902, 42920, 2, 42903);
    (42922, 42922, 1, 614); (42923, 42923, 1, 604); (42924, 42924, 1, 609);
    (42925, 42925, 1, 620); (42926, 42926, 1, 618); (42928, 42928, 1, 670);
    (42929, 42929, 1, 647); (42930, 42930, 1, 669); (42931, 42931, 1, 43859);
    (42932, 42946, 2, 42933); (42948, 42948, 1, 42900);
    (42949, 42949, 1, 642); (42950, 42950, 1, 7566);
    (42951, 42953, 2, 42952); (42960, 42960, 1, 42961);
    (42966, 42968, 2, 42967); (42997, 42997, 1, 42998);
    (65313, 65338, 1, 65345); (66560, 66599, 1, 66600);
    (66736, 66771, 1, 66776); (66928, 66938, 1, 66967);
    (66940, 66954, 1, 66979); (66956, 66962, 1, 66995);
    (66964, 66965, 1, 67003); (68736, 68786, 1, 68800);
    (71840, 71871, 1, 71872); (93760, 93791, 1, 93792);
    (125184, 125217, 1, 125218) ].

(** The code points with the property Cased, as ranges. *)
Definition casedRanges : list (N * N) :=
  [ (65, 90); (97, 122); (170, 170); (181, 181); (186, 186); (192, 214);
    (216, 246); (248, 442); (444, 447); (452, 659); (661, 696); (704, 705);
    (736, 740); (837, 837); (880, 883); (886, 887); (890, 893); (895, 895);
    (902, 902); (904, 906); (908, 908); (910, 929); (931, 1013);
    (1015, 1153); (1162, 1327); (1329, 1366); (1376, 1416); (4256, 4293);
    (4295, 4295); (4301, 4301); (4304, 4346); (4349, 4351); (5024, 5109);
    (5112, 5117); (7296, 7304); (7312, 7354); (7357, 7359); (7424, 7615);
    (7680, 7957); (7960, 7965); (7968, 8005); (8008, 8013); (8016, 8023);
    (8025, 8025); (8027, 8027); (8029, 8029); (8031, 8061); (8064, 8116);
    (8118, 8124); (8126, 8126); (8130, 8132); (8134, 8140); (8144, 8147);
    (8150, 8155); (8160, 8172); (8178, 8180); (8182, 8188); (8305, 8305);
    (8319, 8319); (8336, 8348); (8450, 8450); (8455, 8455); (8458, 8467);
    (8469, 8469); (8473, 8477); (8484, 8484); (8486, 8486); (8488, 8488);
    (8490, 8493); (8495, 8500); (8505, 8505); (8508, 8511); (8517, 8521);
    (8526, 8526); (8544, 8575); (8579, 8580); (9398, 9449); (11264, 11492);
    (11499, 11502); (11506, 11507); (11520, 11557); (11559, 11559);
    (11565, 11565); (42560, 42605); (42624, 42653); (42786, 42887);
    (42891, 42894); (42896, 42954); (42960, 42961); (42963, 42963);
    (42965, 42969); (42997, 42998); (43000, 43002); (43824, 43866);
    (43868, 43880); (43888, 43967); (64256, 64262); (64275, 64279);
    (65313, 65338); (65345, 65370); (66560, 66639); (66736, 66771);
    (66776, 66811); (66928, 66938); (66940, 66954); (66956, 66962);
    (66964, 66965); (66967, 66977); (66979, 66993); (66995, 67001);
    (67003, 67004); (67456, 67456); (67459, 67461); (67463, 67504);
    (67506, 67514); (68736, 68786); (68800, 68850); (71840, 71903);
    (93760, 93823); (119808, 119892); (119894, 119964); (119966, 119967);
    (119970, 119970); (119973, 119974); (119977, 119980); (119982, 119993);
    (119995, 119995); (119997, 120003); (120005, 120069); (120071, 120074);
    (120077, 120084); (120086, 120092); (120094, 120121); (120123, 120126);
    (120128, 120132); (120134, 120134); (120138, 120144); (120146, 120485);
    (120488, 120512); (120514, 120538); (120540, 120570); (120572, 120596);
    (120598, 120628); (120630, 120654); (120656, 120686); (120688, 120712);
    (120714, 120744); (120746, 120770); (120772, 120779); (122624, 122633);
    (122635, 122654); (125184, 125251); (127280, 127305); (127312, 127337);
    (127344, 127369) ].

(** The code points with the property Case_Ignorable, as ranges. *)
Definition caseIgnorableRanges : list (N * N) :=
  [ (39, 39); (46, 46); (58, 58); (94, 94); (96, 96); (168, 168); (173, 173);
    (175, 175); (180, 180); (183, 184); (688, 879); (884, 885); (890, 890);
    (900, 901); (903, 903); (1155, 1161); (1369, 1369); (1375, 1375);
    (1425, 1469); (1471, 1471); (1473, 1474); (1476, 1477); (1479, 1479);
    (1524, 1524); (1536, 1541); (1552, 1562); (1564, 1564); (1600, 1600);
    (1611, 1631); (1648, 1648); (1750, 1757); (1759, 1768); (1770, 1773);
    (1807, 1807); (1809, 1809); (1840, 1866); (1958, 1968); (2027, 2037);
    (2042, 2042); (2045, 2045); (2070, 2093); (2137, 2139); (2184, 2184);
    (2192, 2193); (2200, 2207); (2249, 2306); (2362, 2362); (2364, 2364);
    (2369, 2376); (2381, 2381); (2385, 2391); (2402, 2403); (2417, 2417);
    (2433, 2433); (2492, 2492); (2497, 2500); (2509, 2509); (2530, 2531);
    (2558, 2558); (2561, 2562); (2620, 2620); (2625, 2626); (2631, 2632);
    (2635, 2637); (2641, 2641); (2672, 2673); (2677, 2677); (2689, 2690);
    (2748, 2748); (2753, 2757); (2759, 2760); (2765, 2765); (2786, 2787);
    (2810, 2815); (2817, 2817); (2876, 2876); (2879, 2879); (2881, 2884);
    (2893, 2893); (2901, 2902); (2914, 2915); (2946, 2946); (3008, 3008);
    (3021, 3021); (3072, 3072); (3076, 3076); (3132, 3132); (3134, 3136);
    (3142, 3144); (3146, 3149); (3157, 3158); (3170, 3171); (3201, 3201);
    (3260, 3260); (3263, 3263); (3270, 3270); (3276, 3277); (3298, 3299);
    (3328, 3329); (3387, 3388); (3393, 3396); (3405, 3405); (3426, 3427);
    (3457, 3457); (3530, 3530); (3538, 3540); (3542, 3542); (3633, 3633);
    (3636, 3642); (3654, 3662); (3761, 3761); (3764, 3772); (3782, 3782);
    (3784, 3789); (3864, 3865); (3893, 3893); (3895, 3895); (3897, 3897);
    (3953, 3966); (3968, 3972); (3974, 3975); (3981, 3991); (3993, 4028);
    (4038, 4038); (4141, 4144); (4146, 4151); (4153, 4154); (4157, 4158);
    (4184, 4185); (4190, 4192); (4209, 4212); (4226, 4226); (4229, 4230);
    (4237, 4237); (4253, 4253); (4348, 4348); (4957, 4959); (5906, 5908);
    (5938, 5939); (5970, 5971); (6002, 6003); (6068, 6069); (6071, 6077);
    (6086, 6086); (6089, 6099); (6103, 6103); (6109, 6109); (6155, 6159);
    (6211, 6211); (6277, 6278); (6313, 6313); (6432, 6434); (6439, 6440);
    (6450, 6450); (6457, 6459); (6679, 6680); (6683, 6683); (6742, 6742);
    (6744, 6750); (6752, 6752); (6754, 6754); (6757, 6764); (6771, 6780);
    (6783, 6783); (6823, 6823); (6832, 6862); (6912, 6915); (6964, 6964);
    (6966, 6970); (6972, 6972); (6978, 6978); (7019, 7027); (7040, 7041);
    (7074, 7077); (7080, 7081); (7083, 7085); (7142, 7142); (7144, 7145);
    (7149, 7149); (7151, 7153); (7212, 7219); (7222, 7223); (7288, 7293);
    (7376, 7378); (7380, 7392); (7394, 7400); (7405, 7405); (7412, 7412);
    (7416, 7417); (7468, 7530); (7544, 7544); (7579, 7679); (8125, 8125);
    (8127, 8129); (8141, 8143); (8157, 8159); (8173, 8175); (8189, 8190);
    (8203, 8207); (8216, 8217); (8228, 8228); (8231, 8231); (8234, 8238);
    (8288, 8292); (8294, 8303); (8305, 8305); (8319, 8319); (8336, 8348);
    (8400, 8432); (11388, 11389); (11503, 11505); (11631, 11631);
    (11647, 11647); (11744, 11775); (11823, 11823); (12293, 12293);
    (12330, 12333); (12337, 12341); (12347, 12347); (12441, 12446);
    (12540, 12542); (40981, 40981); (42232, 42237); (42508, 42508);
    (42607, 42610); (42612, 42621); (42623, 42623); (42652, 42655);
    (42736, 42737); (42752, 42785); (42864, 42864); (42888, 42890);
    (42994, 42996); (43000, 43001); (43010, 43010); (43014, 43014);
    (43019, 43019); (43045, 43046); (43052, 43052); (43204, 43205);
    (43232, 43249); (43263, 43263); (43302, 43309); (43335, 43345);
    (43392, 43394); (43443, 43443); (43446, 43449); (43452, 43453);
    (43471, 43471); (43493, 43494); (43561, 43566); (43569, 43570);
    (43573, 43574); (43587, 43587); (43596, 43596); (43632, 43632);
    (43644, 43644); (43696, 43696); (43698, 43700); (43703, 43704);
    (43710, 43711); (43713, 43713); (43741, 43741); (43756, 43757);
    (43763, 43764); (43766, 43766); (43867, 43871); (43881, 43883);
    (44005, 44005); (44008, 44008); (44013, 44013); (64286, 64286);
    (64434, 64450); (65024, 65039); (65043, 65043); (65056, 65071);
    (65106, 65106); (65109, 65109); (65279, 65279); (65287, 65287);
    (65294, 65294); (65306, 65306); (65342, 65342); (65344, 65344);
    (65392, 65392); (65438, 65439); (65507, 65507); (65529, 65531);
    (66045, 66045); (66272, 66272); (66422, 66426); (67456, 67461);
    (67463, 67504); (67506, 67514); (68097, 68099); (68101, 68102);
    (68108, 68111); (68152, 68154); (68159, 68159); (68325, 68326);
    (68900, 68903); (69291, 69292); (69446, 69456); (69506, 69509);
    (69633, 69633); (69688, 69702); (69744, 69744); (69747, 69748);
    (69759, 69761); (69811, 69814); (69817, 69818); (69821, 69821);
    (69826, 69826); (69837, 69837); (69888, 69890); (69927, 69931);
    (69933, 69940); (70003, 70003); (70016, 70017); (70070, 70078);
    (70089, 70092); (70095, 70095); (70191, 70193); (70196, 70196);
    (70198, 70199); (70206, 70206); (70367, 70367); (70371, 70378);
    (70400, 70401); (70459, 70460); (70464, 70464); (70502, 70508);
    (70512, 70516); (70712, 70719); (70722, 70724); (70726, 70726);
    (70750, 70750); (70835, 70840); (70842, 70842); (70847, 70848);
    (70850, 70851); (71090, 71093); (71100, 71101); (71103, 71104);
    (71132, 71133); (71219, 71226); (71229, 71229); (71231, 71232);
    (71339, 71339); (71341, 71341); (71344, 71349); (71351, 71351);
    (71453, 71455); (71458, 71461); (71463, 71467); (71727, 71735);
    (71737, 71738); (71995, 71996); (71998, 71998); (72003, 72003);
    (72148, 72151); (72154, 72155); (72160, 72160); (72193, 72202);
    (72243, 72248); (72251, 72254); (72263, 72263); (72273, 72278);
    (72281, 72283); (72330, 72342); (72344, 72345); (72752, 72758);
    (72760, 72765); (72767, 72767); (72850, 72871); (72874, 72880);
    (72882, 72883); (72885, 72886); (73009, 73014); (73018, 73018);
    (73020, 73021); (73023, 73029); (73031, 73031); (73104, 73105);
    (73109, 73109); (73111, 73111); (73459, 73460); (78896, 78904);
    (92912, 92916); (92976, 92982); (92992, 92995); (94031, 94031);
    (94095, 94111); (94176, 94177); (94179, 94180); (110576, 110579);
    (110581, 110587); (110589, 110590); (113821, 113822); (113824, 113827);
    (118528, 118573); (118576, 118598); (119143, 119145); (119155, 119170);
    (119173, 119179); (119210, 119213); (119362, 119364); (121344, 121398);
    (121403, 121452); (121461, 121461); (121476, 121476); (121499, 121503);
    (121505, 121519); (122880, 122886); (122888, 122904); (122907, 122913);
    (122915, 122916); (122918, 122922); (123184, 123197); (123566, 123566);
    (123628, 123631); (125136, 125142); (125252, 125259); (127995, 127999);
    (917505, 917505); (917536, 917631); (917760, 917999) ].

Definition cased (c : N) : bool := inRanges c casedRanges.

Definition caseIgnorable (c : N) : bool := inRanges c caseIgnorableRanges.

(** The lower case of a code point whatever stands around it: U+0130 has
    the two code points the special casing gives it, a code point of the
    table its image, any other is its own lower case. *)
Definition lowerOne (c : N) : list N :=
  if c =? 304 then [105; 775]
  else
    match
      find (fun r => match r with
                     | (first, last, step, _) =>
                         (first <=? c) && (c <=? last)
                         && ((c - first) mod step =? 0)
                     end)
           lowerRanges
    with
    | Some (first, _, _, image) => [image + (c - first)]
    | None => [c]
    end.

(** Whether a cased letter follows, case-ignorable code points skipped. *)
Fixpoint followedByCased (l : list N) : bool :=
  match l with
  | [] => false
  | c :: l' => if caseIgnorable c then followedByCased l' else cased c
  end.

(** The lower case of a text, Unicode's default case conversion.  [before]
    says whether a cased letter precedes, case-ignorable code points
    skipped; a capital sigma (U+03A3) that has one before it and none after
    it becomes the final sigma (U+03C2), any other the small sigma. *)
Fixpoint lowerFrom (before : bool) (l : list N) : list N :=
  match l with
  | [] => []
  | c :: l' =>
      ((if c =? 931
        then if before && negb (followedByCased l') then [962] else [963]
        else lowerOne c)
       ++ lowerFrom (if caseIgnorable c then before else cased c) l')%list
  end.

(** ECMAScript's WhiteSpace and LineTerminator: TAB, LF, VT, FF, CR, SPACE,
    NO-BREAK SPACE, the other space separators, LINE and PARAGRAPH
    SEPARATOR and ZERO WIDTH NO-BREAK SPACE. *)
Definition isWhiteSpace (c : N) : bool :=
  ((9 <=? c) && (c <=? 13)) || (c =? 32) || (c =? 160) || (c =? 5760)
  || ((8192 <=? c) && (c <=? 8202)) || (c =? 8232) || (c =? 8233)
  || (c =? 8239) || (c =? 8287) || (c =? 12288) || (c =? 65279).

Fixpoint dropWhiteSpace (l : list N) : list N :=
  match l with
  | [] => []
  | c :: l' => if isWhiteSpace c then dropWhiteSpace l' else l
  end.

End Unicode.

(* ------------------------------------------------------------------ *)
(** ** The parts of the JavaScript runtime the component calls *)
(* ------------------------------------------------------------------ *)
Module JS.

(** [Math.round]: the nearest integer, a tie going up. *)
Definition Math_round (x : Q) : Z := Qfloor (Qplus x (1 # 2)).

(** [String(n)] for an integer, as a template literal prints it. *)
Definition Number_toString (n : Z) : string :=
  NilZero.string_of_int (Z.to_int n).

(** [s.slice(from, to)] for [0 <= from <= to]. *)
Definition slice (from to : nat) (s : string) : string :=
  substring from (to - from) s.

(** [s.toLowerCase()] *)
Definition toLowerCase (s : string) : string :=
  Unicode.encode (Unicode.lowerFrom false (Unicode.decode s)).

Fixpoint startsWith (s p : string) {struct p} : bool :=
  match p, s with
  | EmptyString, _ => true
  | String _ _, EmptyString => false
  | String a p', String b s' => Ascii.eqb a b && startsWith s' p'
  end.

(** [s.includes(sub)]: [sub] occurs in [s] at some position. *)
Fixpoint includes (s sub : string) : bool :=
  startsWith s sub
  || match s with
     | EmptyString => false
     | String _ s' => includes s' sub
     end.

(** Whether [trim] takes a code point off an end. *)
Definition isWhiteSpace (c : N) : bool := Unicode.isWhiteSpace c.

(** [s.trim()] *)
Definition trim (s : string) : string :=
  Unicode.encode
    (rev (Unicode.dropWhiteSpace
            (rev (Unicode.dropWhiteSpace (Unicode.decode s))))).

(** Truthiness of a string: [""] is falsy. *)
Definition truthy (s : string) : bool := negb (s =? "")%string.

(** [a || b] where [a] is a string or [null]. *)
Definition orElse (a : option string) (b : string) : string :=
  match a with
  | Some s => if truthy s then s else b
  | None => b
  end.

(** [Array.prototype.sort] with a comparator that is consistent: the result
    is in the comparator's order, elements it ties in the order they had.
    [insert] puts [x], which stood before the elements of [l], in front of
    the first of them that does not go before it. *)
Section Sort.
Context {A : Type} (cmp : A -> A -> Z).

Fixpoint insert (x : A) (l : list A) : list A :=
  match l with
  | [] => [x]
  | y :: l' => if cmp x y <=? 0 then x :: y :: l' else y :: insert x l'
  end.

Fixpoint sort (l : list A) : list A :=
  match l with
  | [] => []
  | x :: l' => insert x (sort l')
  end.
End Sort.

(** The result of a call that may throw. *)
Inductive Completion (A : Type) : Type :=
| Normal (a : A)
| Throw (err : string).
Arguments Normal {A} a.
Arguments Throw {A} err.

End JS.

(* ------------------------------------------------------------------ *)
(** ** Types *)
(* ------------------------------------------------------------------ *)

Record Channels : Type := mkChannels {
  email : bool;
  whatsapp : bool;
  push : bool
}.

Module Task.
Record t : Type := mk {
  id : string;
  title : string;
  category : string;
  whenISO : Z;
  estimateMin : Z;
  repeat : string;
  channels : Channels;
  done : bool;
  createdAt : Z
}.

(** [{ ...t, done: d }] *)
Definition with_done (d : bool) (x : t) : t :=
  mk (id x) (title x) (category x) (whenISO x) (estimateMin x)
     (repeat x) (channels x) d (createdAt x).
End Task.

Record Outcome : Type := mkOutcome {
  status : string;
  lateMin : Z;
  note : string
}.

Module Log.
Record t : Type := mk {
  id : string;
  taskId : string;
  title : string;
  whenISO : Z;
  outcome : Outcome;
  timestamp : Z
}.
End Log.

(** What a handler shows to the user. *)
Inductive Event : Type :=
| Prompt (message : string)
| Alert (message : string).

(** [uid]: [r] is the text [Math.random().toString(36)] produced. *)
Definition uid (r : string) : string := JS.slice 2 10 r.

(* ------------------------------------------------------------------ *)
(** ** Helpers *)
(* ------------------------------------------------------------------ *)

(** [isDueSoon], with the clock reading [now] made explicit. *)
Definition isDueSoon (now : Z) (whenISO : Z) (leadMinutes : Z) : bool :=
  let diffMs := whenISO - now in
  (0 <? diffMs) && (diffMs <=? leadMinutes * 60 * 1000).

Section LocalTime.
(** The host's local-time accessors of a [Date], by time value. *)
Variables getFullYear getMonth getDate : Z -> Z.

(** [withinToday], with the clock reading [now] made explicit. *)
Definition withinToday (now : Z) (iso : Z) : bool :=
  (getFullYear iso =? getFullYear now)
  && (getMonth iso =? getMonth now)
  && (getDate iso =? getDate now).

(** Two instants fall on the same calendar day of the host's local time. *)
Definition sameLocalDay (a b : Z) : Prop :=
  getFullYear a = getFullYear b
  /\ getMonth a = getMonth b
  /\ getDate a = getDate b.

(** What the specification asks of a task for a reminder at [now]: not
    completed, scheduled on the day of [now], and due within the minute
    that follows [now]. *)
Definition due (now : Z) (tk : Task.t) : Prop :=
  Task.done tk = false
  /\ sameLocalDay (Task.whenISO tk) now
  /\ now < Task.whenISO tk <= now + 60000.

(** The reminder checker's selection at one tick of its interval; [now] is
    the instant of the tick. *)
Definition upcoming (now : Z) (tasks : list Task.t) : list Task.t :=
  filter
    (fun tk =>
       negb (Task.done tk)
       && withinToday now (Task.whenISO tk)
       && isDueSoon now (Task.whenISO tk) 1)
    tasks.
End LocalTime.

(** [loadLS]: [stored] is what the key holds when it is present and parses. *)
Definition loadLS {T : Type} (stored : option T) (fallback : T) : T :=
  match stored with
  | Some v => v
  | None => fallback
  end.

(* ------------------------------------------------------------------ *)
(** ** Root component: state and event handlers *)
(* ------------------------------------------------------------------ *)

(** The [useState] cells of [GlassTaskTracker] the handlers read or write. *)
Record State : Type := mkState {
  tasks : list Task.t;
  logs : list Log.t;
  query : string;
  filterCat : string;
  showAdd : bool
}.

Definition setTasks (f : list Task.t -> list Task.t) (st : State) : State :=
  mkState (f (tasks st)) (logs st) (query st) (filterCat st) (showAdd st).

Definition setLogs (f : list Log.t -> list Log.t) (st : State) : State :=
  mkState (tasks st) (f (logs st)) (query st) (filterCat st) (showAdd st).

Definition setQuery (q : string) (st : State) : State :=
  mkState (tasks st) (logs st) q (filterCat st) (showAdd st).

Definition setFilterCat (c : string) (st : State) : State :=
  mkState (tasks st) (logs st) (query st) c (showAdd st).

Definition setShowAdd (b : bool) (st : State) : State :=
  mkState (tasks st) (logs st) (query st) (filterCat st) b.

(** The two tasks a first launch starts with; [now] is the clock at mount
    (the initialiser's readings of it taken as one), [r1] and [r2] the two
    draws of [uid]. *)
Definition defaultTasks (now : Z) (r1 r2 : string) : list Task.t :=
  [ Task.mk (uid r1) "Drink Water" "health" (now + 15 * 60 * 1000) 1 "daily"
      (mkChannels false false true) false now;
    Task.mk (uid r2) "Deep Work Sprint" "work" (now + 60 * 60 * 1000) 50
      "weekdays" (mkChannels true false true) false now ].

(** The state at mount. *)
Definition initialState (storedTasks : option (list Task.t))
    (storedLogs : option (list Log.t)) (now : Z) (r1 r2 : string) : State :=
  mkState (loadLS storedTasks (defaultTasks now r1 r2))
          (loadLS storedLogs []) "" "all" false.

(** The comparator handed to [sort] in [filtered]. *)
Definition byWhen (a b : Task.t) : Z := Task.whenISO a - Task.whenISO b.

(** [filtered]: the [useMemo] over [tasks], [filterCat] and [query]. *)
Definition filtered (tasks : list Task.t) (filterCat query : string)
  : list Task.t :=
  JS.sort byWhen
    (filter
       (fun t => JS.includes (JS.toLowerCase (Task.title t))
                             (JS.toLowerCase query))
       (filter
          (fun t => if (filterCat =? "all")%string then true
                    else (Task.category t =? filterCat)%string)
          tasks)).

Definition addTask (task : Task.t) (st : State) : State :=
  setShowAdd false (setTasks (fun p => (p ++ [task])%list) st).

Definition toggleDone (id : string) (st : State) : State :=
  setTasks
    (fun prev =>
       map (fun t => if (Task.id t =? id)%string
                     then Task.with_done (negb (Task.done t)) t
                     else t)
           prev)
    st.

Definition removeTask (id : string) (st : State) : State :=
  setTasks (fun prev => filter (fun t => negb (Task.id t =? id)%string) prev) st.

(** [logOutcome]; [r] is the draw of [uid], [stamp] the clock reading. *)
Definition logOutcome (r : string) (stamp : Z) (task : Task.t)
    (outcome : Outcome) (st : State) : State :=
  let entry :=
    Log.mk (uid r) (Task.id task) (Task.title task) (Task.whenISO task)
           outcome stamp in
  setLogs (fun p => entry :: p) st.

(** The lateness [completeTask] computes from [Date.now()] and the task. *)
Definition lateness (end_ : Z) (task : Task.t) : Z :=
  let start := Task.whenISO task in
  Z.max 0 (JS.Math_round (Qdiv (inject_Z (end_ - start)) (inject_Z 60000))).

Definition latePrompt (lateMin : Z) : string :=
  "You were late by ~" ++ JS.Number_toString lateMin ++ " min. Why?".

(** [completeTask]; [end_] is [Date.now()], [reply] what [window.prompt]
    returns if it is called ([None] for [null]), [r] and [stamp] the draw and
    the clock reading of [logOutcome]. *)
Definition completeTask (end_ : Z) (reply : option string) (r : string)
    (stamp : Z) (task : Task.t) (st : State) : State * list Event :=
  let lateMin := lateness end_ task in
  let '(why, shown) :=
    if 0 <? lateMin then (reply, [Prompt (latePrompt lateMin)])
    else (Some "on-time", []) in
  let st1 := toggleDone (Task.id task) st in
  (logOutcome r stamp task (mkOutcome "done" lateMin (JS.orElse why "")) st1,
   shown).

(** [aiSuggestion], a function of [logs]. *)
Definition suggestNoLogs : string :=
  "Log a few tasks and I‚Äôll spot patterns for you.".
Definition suggestLate : string :=
  "I noticed multiple late completions. Try scheduling deep-work tasks before lunch and keep water reminders every 90 min.".
Definition suggestMomentum : string :=
  "Nice momentum! Consider creating a small habit streak: 3-day run for water + 20-min walk.".

Definition aiSuggestion (logs : list Log.t) : string :=
  if (List.length logs =? 0)%nat then suggestNoLogs
  else
    let late := filter (fun l => 0 <? lateMin (Log.outcome l)) logs in
    if (3 <=? List.length late)%nat then suggestLate else suggestMomentum.

(* ------------------------------------------------------------------ *)
(** ** AddTaskModal *)
(* ------------------------------------------------------------------ *)

Module Form.
(** The [useState] cells of [AddTaskModal].  [when] is the time value of
    [new Date(when)], [None] when the text is not a date; [estimateMin] is
    [None] for [NaN]. *)
Record t : Type := mk {
  title : string;
  category : string;
  when : option Z;
  repeat : string;
  estimateMin : option Z;
  email : bool;
  whatsapp : bool;
  push : bool
}.
End Form.

(** [Number(estimateMin) || 0] *)
Definition estimateOrZero (n : option Z) : Z :=
  match n with
  | Some v => if v =? 0 then 0 else v
  | None => 0
  end.

(** [submit], with [onCreate] bound to [addTask] as the root component binds
    it; [r] is the draw of [uid], [now] the clock reading of [createdAt].
    [toISOString] throws a [RangeError] on a date that is not one. *)
Definition submit (r : string) (now : Z) (f : Form.t) (st : State)
  : JS.Completion (State * list Event) :=
  if negb (JS.truthy (JS.trim (Form.title f)))
  then JS.Normal (st, [Alert "Please enter a title"])
  else
    match Form.when f with
    | None => JS.Throw "RangeError"
    | Some w =>
        let payload :=
          Task.mk (uid r) (JS.trim (Form.title f)) (Form.category f) w
                  (estimateOrZero (Form.estimateMin f)) (Form.repeat f)
                  (mkChannels (Form.email f) (Form.whatsapp f) (Form.push f))
                  false now in
        JS.Normal (addTask payload st, [])
    end.

(* ------------------------------------------------------------------ *)
(** ** The component as a transition system *)
(* ------------------------------------------------------------------ *)

(** What the user can do, each with the readings its handler takes.  A row
    of the list carries the task it was rendered from. *)
Inductive Action : Type :=
| Submit (f : Form.t) (r : string) (now : Z)
| Toggle (row : Task.t)
| Remove (row : Task.t)
| Complete (row : Task.t) (end_ : Z) (reply : option string) (r : string)
    (stamp : Z)
| Search (q : string)
| SelectCategory (c : string)
| OpenAdd
| CloseAdd.

Definition step (a : Action) (st : State) : State :=
  match a with
  | Submit f r now =>
      match submit r now f st with
      | JS.Normal (st', _) => st'
      | JS.Throw _ => st
      end
  | Toggle row => toggleDone (Task.id row) st
  | Remove row => removeTask (Task.id row) st
  | Complete row end_ reply r stamp =>
      fst (completeTask end_ reply r stamp row st)
  | Search q => setQuery q st
  | SelectCategory c => setFilterCat c st
  | OpenAdd => setShowAdd true st
  | CloseAdd => setShowAdd false st
  end.

(** A row exists only for a task of the visible list, and the form only
    while the modal is shown. *)
Definition visible (st : State) : list Task.t :=
  filtered (tasks st) (filterCat st) (query st).

Definition enabled (a : Action) (st : State) : Prop :=
  match a with
  | Submit _ _ _ => showAdd st = true
  | Toggle row | Remove row | Complete row _ _ _ _ => In row (visible st)
  | Search _ | SelectCategory _ | OpenAdd | CloseAdd => True
  end.

(** The states the component goes through from a first launch (nothing in
    storage).  Storage is written through on every change, so a later launch
    starts from a state an earlier one reached. *)
Inductive reachable : State -> Prop :=
| reach_mount (now : Z) (r1 r2 : string) :
    reachable (initialState None None now r1 r2)
| reach_step (st : State) (a : Action) :
    reachable st -> enabled a st -> reachable (step a st).

Fixpoint run (acts : list Action) (st : State) : State :=
  match acts with
  | [] => st
  | a :: acts' => run acts' (step a st)
  end.

(* ------------------------------------------------------------------ *)
(** ** A concrete calendar: the accessors of a host whose zone is UTC *)
(* ------------------------------------------------------------------ *)
Module UTC.

Definition msPerDay : Z := 86400000.

(** Year, month (1..12) and day of the month of a day number counted from
    1970-01-01, in the proleptic Gregorian calendar. *)
Definition civil (day : Z) : Z * Z * Z :=
  let z := day + 719468 in
  let era := z / 146097 in
  let doe := z - era * 146097 in
  let yoe := (doe - doe / 1460 + doe / 36524 - doe / 146096) / 365 in
  let doy := doe - (365 * yoe + yoe / 4 - yoe / 100) in
  let mp := (5 * doy + 2) / 153 in
  let d := doy - (153 * mp + 2) / 5 + 1 in
  let m := if mp <? 10 then mp + 3 else mp - 9 in
  let y := yoe + era * 400 + (if m <=? 2 then 1 else 0) in
  (y, m, d).

Definition getFullYear (t : Z) : Z := fst (fst (civil (t / msPerDay))).
Definition getMonth (t : Z) : Z := snd (fst (civil (t / msPerDay))) - 1.
Definition getDate (t : Z) : Z := snd (civil (t / msPerDay)).

End UTC.

(* ------------------------------------------------------------------ *)
(** ** Filtering in the words of the specification *)
(* ------------------------------------------------------------------ *)

(** [Kept P l l']: [l'] is [l] without the elements that fail [P], the rest
    in the order [l] has them. *)
Inductive Kept {A : Type} (P : A -> Prop) : list A -> list A -> Prop :=
| Kept_nil : Kept P [] []
| Kept_keep (x : A) (l l' : list A) :
    P x -> Kept P l l' -> Kept P (x :: l) (x :: l')
| Kept_drop (x : A) (l l' : list A) :
    ~ P x -> Kept P l l' -> Kept P (x :: l) l'.



(** A text of ASCII characters. *)
Definition isAscii (s : string) : Prop :=
  forall a, In a (list_ascii_of_string s) -> (Unicode.byte a < 128)%N.





(** The small letter of an ASCII capital, any other character itself. *)
Definition lowerAscii (a : ascii) : ascii :=
  if ((65 <=? Unicode.byte a) && (Unicode.byte a <=? 90))%N
  then Unicode.char (Unicode.byte a + 32)
  else a.

Fixpoint asciiLower (s : string) : string :=
  match s with
  | EmptyString => EmptyString
  | String a s' => String (lowerAscii a) (asciiLower s')
  end.

Definition whenLe (a b : Task.t) : Prop := Task.whenISO a <= Task.whenISO b.


(* ------------------------------------------------------------------ *)
(** ** Notions the statements use *)
(* ------------------------------------------------------------------ *)

(** Two tasks agree on every field but [done]. *)
Definition sameButDone (a b : Task.t) : Prop :=
  Task.id a = Task.id b
  /\ Task.title a = Task.title b
  /\ Task.category a = Task.category b
  /\ Task.whenISO a = Task.whenISO b
  /\ Task.estimateMin a = Task.estimateMin b
  /\ Task.repeat a = Task.repeat b
  /\ Task.channels a = Task.channels b
  /\ Task.createdAt a = Task.createdAt b.

(** The ids of the task list, in order. *)
Definition ids (st : State) : list string := map Task.id (tasks st).

(** The clock readings the completions of a sequence of actions stamp their
    entries with, in the order of the actions. *)
Fixpoint stamps (acts : list Action) : list Z :=
  match acts with
  | [] => []
  | Complete _ _ _ _ stamp :: acts' => stamp :: stamps acts'
  | _ :: acts' => stamps acts'
  end.

(** How many entries of a log list record a lateness other than zero. *)
Definition lateCount (logs : list Log.t) : nat :=
  List.length (filter (fun l => negb (lateMin (Log.outcome l) =? 0)) logs).

(* ------------------------------------------------------------------ *)
(** ** Sample data *)
(* ------------------------------------------------------------------ *)
Module Sample.

(** 2026-11-02T12:00:00.000Z *)
Definition noon : Z := 1793620800000.

Definition task (id title category : string) (whenISO : Z) (done : bool)
  : Task.t :=
  Task.mk id title category whenISO 15 "none" (mkChannels false false true)
          done noon.

(** A space, a no-break space, a tab and an ideographic space. *)
Definition blankTitle : string := Unicode.encode [32%N; 160%N; 9%N; 12288%N].

(** The capital sigma, and a task titled alpha sigma in capitals. *)
Definition sigma : string := Unicode.encode [931%N].

Definition alphaSigma : Task.t :=
  task "u5t0w7rb" (Unicode.encode [913%N; 931%N]) "work" noon false.

Definition inHalfMinute : Task.t :=
  task "k3v9x2ab" "Stretch" "health" (noon + 30 * 1000) false.

Definition inTwoMinutes : Task.t :=
  task "p07qmz4e" "Stand-up" "work" (noon + 2 * 60 * 1000) false.

(** The entry a completion of [tk], on time, leaves in the log. *)
Definition entryOf (tk : Task.t) : Log.t :=
  Log.mk "zq81mf0c" (Task.id tk) (Task.title tk) (Task.whenISO tk)
         (mkOutcome "done" 0 "on-time") (Task.whenISO tk).

(** A first launch at noon, with two distinct draws of [uid]. *)
Definition mounted : State :=
  initialState None None noon "0.k3v9x2ab7f" "0.p07qmz4e1c".

Definition water : Task.t :=
  Task.mk "k3v9x2ab" "Drink Water" "health" (noon + 15 * 60 * 1000) 1 "daily"
          (mkChannels false false true) false noon.

Definition walk : Form.t :=
  Form.mk "Walk" "health" (Some (noon + 60 * 60 * 1000)) "none" (Some 20)
          false false true.

(** The form is opened and submitted, and [uid] draws what it drew first. *)
Definition resubmitted : State :=
  step (Submit walk "0.k3v9x2ab7f" noon) (step OpenAdd mounted).

(** The user ticks the checkbox of the first row ... *)
Definition ticked : State := step (Toggle water) mounted.

(** ... and then presses "Mark Done" on that row, at the scheduled time. *)
Definition marked : State :=
  step (Complete (Task.with_done true water) (noon + 15 * 60 * 1000) None
          "0.zq81mf0c9d" (noon + 15 * 60 * 1000))
       ticked.

Definition lateEntry (id : string) (minutes : Z) : Log.t :=
  Log.mk id "k3v9x2ab" "Drink Water" noon
         (mkOutcome "done" minutes "meeting ran over")
         (noon + minutes * 60 * 1000).

Definition threeLate : list Log.t :=
  [lateEntry "a81kq0zm" 12; entryOf inHalfMinute; lateEntry "m2x9c4ye" 3;
   lateEntry "u5t0w7rb" 45].

End Sample.

(* ------------------------------------------------------------------ *)
(** ** The rest of the component *)
(* ------------------------------------------------------------------ *)

(** An argument of [classNames]: a string, a boolean or [undefined]. *)
Inductive ClassValue : Type :=
| ClassString (s : string)
| ClassBool (b : bool)
| ClassUndefined.

(** [Boolean(v)] *)
Definition Boolean (v : ClassValue) : bool :=
  match v with
  | ClassString s => JS.truthy s
  | ClassBool b => b
  | ClassUndefined => false
  end.

(** The text [join] writes for an element. *)
Definition classText (v : ClassValue) : string :=
  match v with
  | ClassString s => s
  | ClassBool true => "true"
  | ClassBool false => "false"
  | ClassUndefined => ""
  end.

(** [parts.join(sep)] *)
Fixpoint join (sep : string) (parts : list string) : string :=
  match parts with
  | [] => ""
  | [x] => x
  | x :: rest => x ++ sep ++ join sep rest
  end.

Definition classNames (a : list ClassValue) : string :=
  join " " (map classText (filter Boolean a)).

(** [Notification.permission] *)
Inductive Permission : Type :=
| PermissionDefault
| PermissionGranted
| PermissionDenied.

(** What [notify] looks at: whether there is a [window], whether it has
    [Notification], and the permission. *)
Record Host : Type := mkHost {
  hasWindow : bool;
  hasNotification : bool;
  permission : Permission
}.

(** [new Notification(title, { body })] *)
Record Shown : Type := mkShown {
  shownTitle : string;
  shownBody : string
}.

(** [notify]: what it puts on the screen. *)
Definition notify (h : Host) (title body : string) : list Shown :=
  if negb (hasWindow h) then []
  else if negb (hasNotification h) then []
  else
    match permission h with
    | PermissionGranted => [mkShown title body]
    | _ => []
    end.

(** The period of the reminder checker's interval, in milliseconds. *)
Definition reminderPeriod : Z := 20000.

Section Reminder.
Variables getFullYear getMonth getDate : Z -> Z.
(** [formatTime], the host's rendering of hour and minute. *)
Variable formatTime : Z -> string.

(** The callback of the reminder checker's interval, at a tick taken at
    [now]. *)
Definition reminderTick (h : Host) (now : Z) (tasks : list Task.t)
  : list Shown :=
  flat_map
    (fun u =>
       notify h "Reminder"
         (Task.title u ++ " at " ++ formatTime (Task.whenISO u)))
    (upcoming getFullYear getMonth getDate now tasks).
End Reminder.

(** [TaskRow]'s [dueSoon], rendered at [now]. *)
Definition dueSoon (now : Z) (task : Task.t) : bool :=
  isDueSoon now (Task.whenISO task) 30.

Module WeeklyInsights.
Section Stats.
Variables getFullYear getMonth getDate : Z -> Z.

Definition todayTasks (now : Z) (tasks : list Task.t) : list Task.t :=
  filter (fun t => withinToday getFullYear getMonth getDate now (Task.whenISO t))
         tasks.

Definition completed (now : Z) (tasks : list Task.t) : nat :=
  List.length (filter (fun t => Task.done t) (todayTasks now tasks)).

Definition due (now : Z) (tasks : list Task.t) : nat :=
  List.length (todayTasks now tasks).
End Stats.

(** [n || 0] for a number *)
Definition orZero (n : Z) : Z := if n =? 0 then 0 else n.

(** Truthiness of a number. *)
Definition truthyNumber (n : Z) : bool := negb (n =? 0).

Definition lateness (logs : list Log.t) : Z :=
  fold_left
    (fun acc l => acc + orZero (lateMin (Log.outcome l)))
    (firstn 30 (filter (fun l => truthyNumber (lateMin (Log.outcome l))) logs))
    0.
End WeeklyInsights.

Module History.
(** The entries [History] renders a row for. *)
Definition rows (logs : list Log.t) : list Log.t := firstn 20 logs.
End History.

Module LocalStorage.
(** The browser's store: the text under each key that has one. *)
Definition Storage : Type := string -> option string.

Definition getItem (key : string) (s : Storage) : option string := s key.

Definition setItem (key value : string) (s : Storage) : Storage :=
  fun k => if (k =? key)%string then Some value else s k.

Definition LS_KEY : string := "glass_tracker_tasks_v1".
Definition LS_LOGS_KEY : string := "glass_tracker_logs_v1".

Section Codec.
Context {T : Type}.
(** [JSON.parse] at the type read, [None] where it throws, and
    [JSON.stringify]. *)
Variable parse : string -> option T.
Variable stringify : T -> string.

(** [loadLS] on the store: a missing key and an empty text give the
    fallback, and so does a text [JSON.parse] throws on. *)
Definition loadLS (s : Storage) (key : string) (fallback : T) : T :=
  match getItem key s with
  | None => fallback
  | Some raw =>
      if negb (JS.truthy raw) then fallback
      else
        match parse raw with
        | Some v => v
        | None => fallback
        end
  end.

Definition saveLS (key : string) (value : T) (s : Storage) : Storage :=
  setItem key (stringify value) s.
End Codec.
End LocalStorage.

(** The select of the toolbar and of the form offer these. *)
Record Option_ : Type := mkOption {
  key : string;
  label : string
}.

Definition CATEGORIES : list Option_ :=
  [ mkOption "health" "Health"; mkOption "work" "Work";
    mkOption "personal" "Personal"; mkOption "habit" "Habit" ].

Definition REPEAT : list Option_ :=
  [ mkOption "none" "Once"; mkOption "daily" "Daily";
    mkOption "weekdays" "Weekdays"; mkOption "weekly" "Weekly" ].

(** [table.find((c) => c.key === k)?.label] *)
Definition labelOf (table : list Option_) (k : string) : option string :=
  option_map label (find (fun c => (key c =? k)%string) table).

(** A text of whitespace only, the empty text included. *)
Definition blank (s : string) : Prop :=
  forall c, In c (Unicode.decode s) -> JS.isWhiteSpace c = true.

(** The minutes of lateness a log list records, all entries taken. *)
Fixpoint totalLate (logs : list Log.t) : Z :=
  match logs with
  | [] => 0
  | l :: logs' => lateMin (Log.outcome l) + totalLate logs'
  end.

(** The entries that record a lateness other than zero. *)
Definition lateEntries (logs : list Log.t) : list Log.t :=
  filter (fun l => WeeklyInsights.truthyNumber (lateMin (Log.outcome l))) logs.

Section Persistence.
(** [JSON.parse] and [JSON.stringify] at the two types stored. *)
Variable parseTasks : string -> option (list Task.t).
Variable stringifyTasks : list Task.t -> string.
Variable parseLogs : string -> option (list Log.t).
Variable stringifyLogs : list Log.t -> string.

(** The two effects that follow a render in which [tasks] and [logs]
    changed. *)
Definition persist (st : State) (s : LocalStorage.Storage)
  : LocalStorage.Storage :=
  LocalStorage.saveLS stringifyLogs LocalStorage.LS_LOGS_KEY (logs st)
    (LocalStorage.saveLS stringifyTasks LocalStorage.LS_KEY (tasks st) s).

(** The state at mount, read from the store. *)
Definition mountFrom (s : LocalStorage.Storage) (now : Z) (r1 r2 : string)
  : State :=
  mkState
    (LocalStorage.loadLS parseTasks s LocalStorage.LS_KEY
       (defaultTasks now r1 r2))
    (LocalStorage.loadLS parseLogs s LocalStorage.LS_LOGS_KEY [])
    "" "all" false.
End Persistence.

Module SampleCodec.
(** JSON at the type of booleans. *)
Definition stringifyBool (b : bool) : string :=
  if b then "true" else "false".

Definition parseBool (s : string) : option bool :=
  if (s =? "true")%string then Some true
  else if (s =? "false")%string then Some false
  else None.

(** A store with nothing in it. *)
Definition nothing : LocalStorage.Storage := fun _ => None.

(** JSON at the types of the two lists: the text [JSON.stringify] writes
    for a list of tasks and for a list of log entries, and [JSON.parse] on
    the texts so written, any other text taken as one that does not parse. *)
Definition quote : ascii := ascii_of_nat 34.
Definition backslash : ascii := ascii_of_nat 92.

Definition digit (n : Z) : ascii := ascii_of_nat (48 + Z.to_nat n).

(** [n], zero or more, in [width] decimal digits. *)
Fixpoint digits (width : nat) (n : Z) : string :=
  match width with
  | O => ""
  | S w => digits w (n / 10) ++ String (digit (n mod 10)) ""
  end.

Definition hexDigit (n : Z) : ascii :=
  if n <? 10 then digit n else ascii_of_nat (87 + Z.to_nat n).

(** [toISOString] of a time value. *)
Definition toISOString (t : Z) : string :=
  match UTC.civil (t / UTC.msPerDay) with
  | (y, m, d) =>
      let ms := t mod UTC.msPerDay in
      (if (0 <=? y) && (y <=? 9999) then digits 4 y
       else (if y <? 0 then "-" else "+") ++ digits 6 (Z.abs y))
      ++ "-" ++ digits 2 m ++ "-" ++ digits 2 d
      ++ "T" ++ digits 2 (ms / 3600000)
      ++ ":" ++ digits 2 (ms / 60000 mod 60)
      ++ ":" ++ digits 2 (ms / 1000 mod 60)
      ++ "." ++ digits 3 (ms mod 1000) ++ "Z"
  end.

(** The text of a string between quotes: the quote, the backslash and the
    control characters escaped. *)
Definition escapeOne (c : ascii) : string :=
  let n := nat_of_ascii c in
  if (n =? 34)%nat then String backslash (String quote "")
  else if (n =? 92)%nat then String backslash (String backslash "")
  else if (n =? 8)%nat then String backslash "b"
  else if (n =? 9)%nat then String backslash "t"
  else if (n =? 10)%nat then String backslash "n"
  else if (n =? 12)%nat then String backslash "f"
  else if (n =? 13)%nat then String backslash "r"
  else if (n <? 32)%nat then
    String backslash
      ("u00" ++ String (hexDigit (Z.of_nat n / 16))
                  (String (hexDigit (Z.of_nat n mod 16)) ""))
  else String c "".

Fixpoint escape (s : string) : string :=
  match s with
  | EmptyString => EmptyString
  | String c s' => escapeOne c ++ escape s'
  end.

Definition quoted (s : string) : string :=
  String quote (escape s ++ String quote "").

Definition member (name value : string) : string :=
  quoted name ++ ":" ++ value.

Definition stringifyZ (n : Z) : string := JS.Number_toString n.

Definition stringifyTask (t : Task.t) : string :=
  "{" ++ member "id" (quoted (Task.id t))
  ++ "," ++ member "title" (quoted (Task.title t))
  ++ "," ++ member "category" (quoted (Task.category t))
  ++ "," ++ member "whenISO" (quoted (toISOString (Task.whenISO t)))
  ++ "," ++ member "estimateMin" (stringifyZ (Task.estimateMin t))
  ++ "," ++ member "repeat" (quoted (Task.repeat t))
  ++ "," ++ member "channels"
              ("{" ++ member "email" (stringifyBool (email (Task.channels t)))
               ++ "," ++ member "whatsapp"
                           (stringifyBool (whatsapp (Task.channels t)))
               ++ "," ++ member "push"
                           (stringifyBool (push (Task.channels t)))
               ++ "}")
  ++ "," ++ member "done" (stringifyBool (Task.done t))
  ++ "," ++ member "createdAt" (quoted (toISOString (Task.createdAt t)))
  ++ "}".

Definition stringifyLog (l : Log.t) : string :=
  "{" ++ member "id" (quoted (Log.id l))
  ++ "," ++ member "taskId" (quoted (Log.taskId l))
  ++ "," ++ member "title" (quoted (Log.title l))
  ++ "," ++ member "whenISO" (quoted (toISOString (Log.whenISO l)))
  ++ "," ++ member "outcome"
              ("{" ++ member "status" (quoted (status (Log.outcome l)))
               ++ "," ++ member "lateMin"
                           (stringifyZ (lateMin (Log.outcome l)))
               ++ "," ++ member "note" (quoted (note (Log.outcome l)))
               ++ "}")
  ++ "," ++ member "timestamp" (quoted (toISOString (Log.timestamp l)))
  ++ "}".

Definition stringifyList {A : Type} (one : A -> string) (l : list A)
  : string :=
  "[" ++ join "," (map one l) ++ "]".

Definition stringifyTasks : list Task.t -> string :=
  stringifyList stringifyTask.

Definition stringifyLogs : list Log.t -> string :=
  stringifyList stringifyLog.

(** A reader takes what it reads off the front of a text. *)
Definition Reader (A : Type) : Type := string -> option (A * string).

Definition andThen {A B : Type} (x : option (A * string))
    (k : A -> Reader B) : option (B * string) :=
  match x with
  | Some (a, rest) => k a rest
  | None => None
  end.

Fixpoint expect (lit : string) : Reader unit :=
  fun s =>
    match lit, s with
    | EmptyString, _ => Some (tt, s)
    | String a lit', String b s' =>
        if Ascii.eqb a b then expect lit' s' else None
    | String _ _, EmptyString => None
    end.

Definition digitValue (c : ascii) : option Z :=
  let n := nat_of_ascii c in
  if (48 <=? n)%nat && (n <=? 57)%nat then Some (Z.of_nat n - 48) else None.

Definition hexValue (c : ascii) : option Z :=
  let n := nat_of_ascii c in
  match digitValue c with
  | Some v => Some v
  | None =>
      if (97 <=? n)%nat && (n <=? 102)%nat then Some (Z.of_nat n - 87)
      else if (65 <=? n)%nat && (n <=? 70)%nat then Some (Z.of_nat n - 55)
      else None
  end.

(** Exactly [width] decimal digits. *)
Fixpoint readDigits (width : nat) (acc : Z) : Reader Z :=
  fun s =>
    match width with
    | O => Some (acc, s)
    | S w =>
        match s with
        | String c s' =>
            match digitValue c with
            | Some v => readDigits w (10 * acc + v) s'
            | None => None
            end
        | EmptyString => None
        end
    end.

(** The decimal digits at the front of a text, as many as there are. *)
Fixpoint readMoreDigits (acc : Z) (s : string) : Z * string :=
  match s with
  | String c s' =>
      match digitValue c with
      | Some v => readMoreDigits (10 * acc + v) s'
      | None => (acc, s)
      end
  | EmptyString => (acc, s)
  end.

Definition readZ : Reader Z :=
  fun s =>
    match s with
    | String c s' =>
        if Ascii.eqb c "-" then
          match s' with
          | String d _ =>
              match digitValue d with
              | Some _ =>
                  match readMoreDigits 0 s' with
                  | (n, rest) => Some (- n, rest)
                  end
              | None => None
              end
          | EmptyString => None
          end
        else
          match digitValue c with
          | Some _ => Some (readMoreDigits 0 s)
          | None => None
          end
    | EmptyString => None
    end.

Definition readBool : Reader bool :=
  fun s =>
    match expect "true" s with
    | Some (_, rest) => Some (true, rest)
    | None =>
        match expect "false" s with
        | Some (_, rest) => Some (false, rest)
        | None => None
        end
    end.

(** The characters of a string up to its closing quote, escapes undone. *)
Fixpoint readChars (s : string) : option (string * string) :=
  match s with
  | EmptyString => None
  | String c s1 =>
      if Ascii.eqb c quote then Some (EmptyString, s1)
      else if Ascii.eqb c backslash then
        match s1 with
        | EmptyString => None
        | String e s2 =>
            if Ascii.eqb e "u" then
              match s2 with
              | String h1 (String h2 (String h3 (String h4 s6))) =>
                  match hexValue h1, hexValue h2, hexValue h3, hexValue h4 with
                  | Some a, Some b, Some c', Some d =>
                      let cp := ((a * 16 + b) * 16 + c') * 16 + d in
                      if (55296 <=? cp) && (cp <=? 57343) then None
                      else
                        match readChars s6 with
                        | Some (text, rest) =>
                            Some (Unicode.encodeOne (Z.to_N cp) ++ text, rest)
                        | None => None
                        end
                  | _, _, _, _ => None
                  end
              | _ => None
              end
            else
              match
                (if Ascii.eqb e quote then Some quote
                 else if Ascii.eqb e backslash then Some backslash
                 else if Ascii.eqb e "/" then Some "/"%char
                 else if Ascii.eqb e "b" then Some (ascii_of_nat 8)
                 else if Ascii.eqb e "t" then Some (ascii_of_nat 9)
                 else if Ascii.eqb e "n" then Some (ascii_of_nat 10)
                 else if Ascii.eqb e "f" then Some (ascii_of_nat 12)
                 else if Ascii.eqb e "r" then Some (ascii_of_nat 13)
                 else None),
                readChars s2
              with
              | Some x, Some (text, rest) => Some (String x text, rest)
              | _, _ => None
              end
        end
      else if (nat_of_ascii c <? 32)%nat then None
      else
        match readChars s1 with
        | Some (text, rest) => Some (String c text, rest)
        | None => None
        end
  end.

Definition readString : Reader string :=
  fun s =>
    match s with
    | String c s' => if Ascii.eqb c quote then readChars s' else None
    | EmptyString => None
    end.

(** The day number of a date of the proleptic Gregorian calendar. *)
Definition dayNumber (y m d : Z) : Z :=
  let y' := if m <=? 2 then y - 1 else y in
  let era := y' / 400 in
  let yoe := y' - era * 400 in
  let doy := (153 * (if 2 <? m then m - 3 else m + 9) + 2) / 5 + d - 1 in
  let doe := yoe * 365 + yoe / 4 - yoe / 100 + doy in
  era * 146097 + doe - 719468.

(** The time value of a text in the format [toISOString] writes. *)
Definition readISO (s : string) : option Z :=
  let year : option (Z * string) :=
    match s with
    | String c s' =>
        if Ascii.eqb c "+" then readDigits 6 0 s'
        else if Ascii.eqb c "-" then
          andThen (readDigits 6 0 s') (fun y rest => Some (- y, rest))
        else readDigits 4 0 s
    | EmptyString => None
    end in
  match
    andThen year (fun y =>
    fun r => andThen (expect "-" r) (fun _ =>
    fun r => andThen (readDigits 2 0 r) (fun m =>
    fun r => andThen (expect "-" r) (fun _ =>
    fun r => andThen (readDigits 2 0 r) (fun d =>
    fun r => andThen (expect "T" r) (fun _ =>
    fun r => andThen (readDigits 2 0 r) (fun hh =>
    fun r => andThen (expect ":" r) (fun _ =>
    fun r => andThen (readDigits 2 0 r) (fun mm =>
    fun r => andThen (expect ":" r) (fun _ =>
    fun r => andThen (readDigits 2 0 r) (fun ss =>
    fun r => andThen (expect "." r) (fun _ =>
    fun r => andThen (readDigits 3 0 r) (fun ms =>
    fun r => andThen (expect "Z" r) (fun _ =>
    fun r =>
      Some
        (dayNumber y m d * UTC.msPerDay
         + ((hh * 60 + mm) * 60 + ss) * 1000 + ms, r)))))))))))))))
  with
  | Some (t, EmptyString) =>
      if (toISOString t =? s)%string then Some t else None
  | _ => None
  end.

Definition readDate : Reader Z :=
  fun s =>
    andThen (readString s) (fun text rest =>
      match readISO text with
      | Some t => Some (t, rest)
      | None => None
      end).

(** The value of the member [name], which must come next. *)
Definition readMember {A : Type} (name : string) (value : Reader A)
  : Reader A :=
  fun s => andThen (expect (quoted name ++ ":") s) (fun _ => value).

Definition readTask : Reader Task.t :=
  fun s =>
    andThen (expect "{" s) (fun _ =>
    fun r => andThen (readMember "id" readString r) (fun id =>
    fun r => andThen (expect "," r) (fun _ =>
    fun r => andThen (readMember "title" readString r) (fun title =>
    fun r => andThen (expect "," r) (fun _ =>
    fun r => andThen (readMember "category" readString r) (fun category =>
    fun r => andThen (expect "," r) (fun _ =>
    fun r => andThen (readMember "whenISO" readDate r) (fun whenISO =>
    fun r => andThen (expect "," r) (fun _ =>
    fun r => andThen (readMember "estimateMin" readZ r) (fun estimateMin =>
    fun r => andThen (expect "," r) (fun _ =>
    fun r => andThen (readMember "repeat" readString r) (fun repeat =>
    fun r => andThen (expect "," r) (fun _ =>
    fun r => andThen (expect (quoted "channels" ++ ":{") r) (fun _ =>
    fun r => andThen (readMember "email" readBool r) (fun e =>
    fun r => andThen (expect "," r) (fun _ =>
    fun r => andThen (readMember "whatsapp" readBool r) (fun w =>
    fun r => andThen (expect "," r) (fun _ =>
    fun r => andThen (readMember "push" readBool r) (fun p =>
    fun r => andThen (expect "}," r) (fun _ =>
    fun r => andThen (readMember "done" readBool r) (fun done =>
    fun r => andThen (expect "," r) (fun _ =>
    fun r => andThen (readMember "createdAt" readDate r) (fun createdAt =>
    fun r => andThen (expect "}" r) (fun _ =>
    fun r =>
      Some (Task.mk id title category whenISO estimateMin repeat
                    (mkChannels e w p) done createdAt, r)
    )))))))))))))))))))))))).

Definition readLog : Reader Log.t :=
  fun s =>
    andThen (expect "{" s) (fun _ =>
    fun r => andThen (readMember "id" readString r) (fun id =>
    fun r => andThen (expect "," r) (fun _ =>
    fun r => andThen (readMember "taskId" readString r) (fun taskId =>
    fun r => andThen (expect "," r) (fun _ =>
    fun r => andThen (readMember "title" readString r) (fun title =>
    fun r => andThen (expect "," r) (fun _ =>
    fun r => andThen (readMember "whenISO" readDate r) (fun whenISO =>
    fun r => andThen (expect "," r) (fun _ =>
    fun r => andThen (expect (quoted "outcome" ++ ":{") r) (fun _ =>
    fun r => andThen (readMember "status" readString r) (fun st =>
    fun r => andThen (expect "," r) (fun _ =>
    fun r => andThen (readMember "lateMin" readZ r) (fun late =>
    fun r => andThen (expect "," r) (fun _ =>
    fun r => andThen (readMember "note" readString r) (fun nt =>
    fun r => andThen (expect "}," r) (fun _ =>
    fun r => andThen (readMember "timestamp" readDate r) (fun stamp =>
    fun r => andThen (expect "}" r) (fun _ =>
    fun r =>
      Some (Log.mk id taskId title whenISO (mkOutcome st late nt) stamp, r)
    )))))))))))))))))).

(** The elements after the first, each after a comma, up to the closing
    bracket; [fuel] is at least the number of elements. *)
Fixpoint readRest {A : Type} (one : Reader A) (fuel : nat)
  : Reader (list A) :=
  fun s =>
    match expect "]" s with
    | Some (_, rest) => Some ([], rest)
    | None =>
        match fuel with
        | O => None
        | S fuel' =>
            andThen (expect "," s) (fun _ =>
            fun r => andThen (one r) (fun x =>
            fun r => andThen (readRest one fuel' r) (fun xs =>
            fun r => Some (x :: xs, r))))
        end
    end.

Definition parseList {A : Type} (one : Reader A) (s : string)
  : option (list A) :=
  match expect "[]" s with
  | Some (_, EmptyString) => Some []
  | _ =>
      match
        andThen (expect "[" s) (fun _ =>
        fun r => andThen (one r) (fun x =>
        fun r => andThen (readRest one (String.length s) r) (fun xs =>
        fun r => Some (x :: xs, r))))
      with
      | Some (l, EmptyString) => Some l
      | _ => None
      end
  end.

Definition parseTasks : string -> option (list Task.t) := parseList readTask.

Definition parseLogs : string -> option (list Log.t) := parseList readLog.
End SampleCodec.

(** The form's two selects hold one of the options they offer. *)
Definition offered (f : Form.t) : Prop :=
  In (Form.category f) (map key CATEGORIES)
  /\ In (Form.repeat f) (map key REPEAT).

Definition offeredAction (a : Action) : Prop :=
  match a with
  | Submit f _ _ => offered f
  | _ => True
  end.

(** The category chip and the repeat chip of a row have a text. *)
Definition hasLabels (t : Task.t) : Prop :=
  labelOf CATEGORIES (Task.category t) <> None
  /\ labelOf REPEAT (Task.repeat t) <> None.

(* ------------------------------------------------------------------ *)
(** ** Facts about the runtime functions *)
(* ------------------------------------------------------------------ *)

Lemma startsWith_spec (s p : string) :
  JS.startsWith s p = true <-> exists post, s = p ++ post.
Proof.
  revert s; induction p as [|a p IH]; intros s; simpl.
  - split; [intros _; exists s; reflexivity | reflexivity].
  - destruct s as [|b s].
    + split; [discriminate | intros [post H]; discriminate].
    + rewrite andb_true_iff, Ascii.eqb_eq, IH. split.
      * intros [-> [post ->]]. exists post. reflexivity.
      * intros [post H]. injection H as -> ->. split; [reflexivity | now exists post].
Qed.

Lemma includes_spec (s sub : string) :
  JS.includes s sub = true <-> exists pre post, s = pre ++ sub ++ post.
Proof.
  induction s as [|c s IH]; simpl.
  - rewrite orb_false_r, startsWith_spec. split.
    + intros [post H]. exists "", post. exact H.
    + intros [pre [post H]]. destruct pre as [|x pre]; [|discriminate].
      exists post. exact H.
  - rewrite orb_true_iff, IH, startsWith_spec. split.
    + intros [[post H] | [pre [post H]]].
      * exists "", post. exact H.
      * exists (String c pre), post. simpl. now rewrite H.
    + intros [pre [post H]]. destruct pre as [|x pre].
      * left. exists post. exact H.
      * right. simpl in H. injection H as _ H. now exists pre, post.
Qed.


Lemma dropWhiteSpace_white (l : list N) :
  (forall c, In c l -> JS.isWhiteSpace c = true) ->
  Unicode.dropWhiteSpace l = [].
Proof.
  induction l as [|c l IH]; intros H; [reflexivity|].
  cbn [Unicode.dropWhiteSpace].
  pose proof (H c (or_introl eq_refl)) as Hc.
  unfold JS.isWhiteSpace in Hc. rewrite Hc.
  apply IH. intros d Hd. apply H. now right.
Qed.

Lemma trim_white (s : string) :
  (forall c, In c (Unicode.decode s) -> JS.isWhiteSpace c = true) ->
  JS.trim s = "".
Proof.
  intros H. unfold JS.trim. rewrite (dropWhiteSpace_white _ H). reflexivity.
Qed.

(** [Math.round] of a quotient of integers, in integer arithmetic. *)
Lemma Math_round_div (a b : Z) :
  0 < b ->
  JS.Math_round (Qdiv (inject_Z a) (inject_Z b)) = (2 * a + b) / (2 * b).
Proof.
  intros Hb. destruct b as [|b|b]; try lia.
  unfold JS.Math_round, Qdiv, Qinv, inject_Z, Qmult, Qplus, Qfloor.
  cbn [Qnum Qden]. rewrite !Pos2Z.inj_mul.
  f_equal; lia.
Qed.

Section SortFacts.
Context {A : Type} (cmp : A -> A -> Z).

Lemma insert_perm (x : A) (l : list A) :
  Permutation (JS.insert cmp x l) (x :: l).
Proof.
  induction l as [|y l IH]; simpl; [reflexivity|].
  destruct (cmp x y <=? 0); [reflexivity|].
  rewrite IH. apply perm_swap.
Qed.

Lemma sort_perm (l : list A) : Permutation (JS.sort cmp l) l.
Proof.
  induction l as [|x l IH]; simpl; [reflexivity|].
  rewrite insert_perm. now apply perm_skip.
Qed.


End SortFacts.


Lemma filter_Kept {A : Type} (P : A -> Prop) (f : A -> bool) (l : list A) :
  (forall x, f x = true <-> P x) -> Kept P l (filter f l).
Proof.
  intros Hf. induction l as [|x l IH]; simpl; [constructor|].
  destruct (f x) eqn:E.
  - apply Kept_keep; [now apply Hf | exact IH].
  - apply Kept_drop; [|exact IH]. intros HP. apply Hf in HP. congruence.
Qed.

Lemma Kept_functional {A : Type} (P : A -> Prop) (l a b : list A) :
  Kept P l a -> Kept P l b -> a = b.
Proof.
  intros Ha. revert b.
  induction Ha as [|x l a Px Ha IH|x l a Px Ha IH]; intros b Hb;
    inversion Hb; subst; try contradiction; try reflexivity.
  - f_equal. now apply IH.
  - now apply IH.
Qed.

Lemma Kept_In {A : Type} (P : A -> Prop) (l l' : list A) (x : A) :
  Kept P l l' -> (In x l' <-> In x l /\ P x).
Proof.
  induction 1 as [|y l l' Py K IH|y l l' Py K IH]; simpl.
  - tauto.
  - rewrite IH. split.
    + intros [->|[H1 H2]]; auto.
    + intros [[->|H1] H2]; auto.
  - rewrite IH. split.
    + intros [H1 H2]; auto.
    + intros [[->|H1] H2]; [contradiction | auto].
Qed.


Lemma insert_byWhen_sorted (x : Task.t) (l : list Task.t) :
  StronglySorted whenLe l -> StronglySorted whenLe (JS.insert byWhen x l).
Proof.
  induction 1 as [|y l Hs IH Hy]; simpl.
  - repeat constructor.
  - unfold byWhen at 1. destruct (_ <=? 0) eqn:E.
    + apply Z.leb_le in E. constructor; [now constructor|].
      constructor; [unfold whenLe; lia|].
      eapply Forall_impl; [|exact Hy]. unfold whenLe. intros z Hz. lia.
    + apply Z.leb_gt in E. constructor; [exact IH|].
      eapply Permutation_Forall; [symmetry; apply insert_perm|].
      constructor; [unfold whenLe; lia | exact Hy].
Qed.

Lemma sort_byWhen_sorted (l : list Task.t) :
  StronglySorted whenLe (JS.sort byWhen l).
Proof.
  induction l as [|x l IH]; simpl; [constructor|].
  now apply insert_byWhen_sorted.
Qed.


Lemma filter_all {A : Type} (f : A -> bool) (l : list A) :
  (forall x, In x l -> f x = true) -> filter f l = l.
Proof.
  induction l as [|x l IH]; simpl; intros H; [reflexivity|].
  rewrite (H x (or_introl eq_refl)). f_equal. apply IH. intros y Hy.
  apply H. now right.
Qed.



(* ------------------------------------------------------------------ *)
(** ** [toLowerCase] on ASCII texts *)
(* ------------------------------------------------------------------ *)

Lemma decode_cons_ascii (a : ascii) (s : string) :
  (Unicode.byte a < 128)%N ->
  Unicode.decode (String a s) = Unicode.byte a :: Unicode.decode s.
Proof.
  intros H. apply N.ltb_lt in H. cbn [Unicode.decode]. now rewrite H.
Qed.

Lemma decode_ascii (s : string) :
  isAscii s ->
  Unicode.decode s = map Unicode.byte (list_ascii_of_string s).
Proof.
  induction s as [|a s IH]; intros H; [reflexivity|].
  rewrite decode_cons_ascii by (apply H; now left).
  simpl. f_equal. apply IH. intros b Hb. apply H. now right.
Qed.

(** The lower case of an ASCII code point, in arithmetic. *)
Lemma lower_below_128 :
  forallb
    (fun n =>
       let c := N.of_nat n in
       negb (c =? 931)%N
       && match Unicode.lowerOne c with
          | [d] => (d =? (if (65 <=? c) && (c <=? 90) then c + 32 else c))%N
          | _ => false
          end)
    (seq 0 128)
  = true.
Proof. vm_compute. reflexivity. Qed.

Lemma lowerOne_ascii (c : N) :
  (c < 128)%N ->
  (c =? 931)%N = false
  /\ Unicode.lowerOne c
     = [if ((65 <=? c) && (c <=? 90))%N then (c + 32)%N else c].
Proof.
  intros H. pose proof lower_below_128 as A.
  rewrite forallb_forall in A. specialize (A (N.to_nat c)).
  rewrite N2Nat.id in A. cbv zeta in A.
  assert (Hin : In (N.to_nat c) (seq 0 128)) by (apply in_seq; lia).
  specialize (A Hin). apply andb_true_iff in A. destruct A as [A1 A2].
  apply negb_true_iff in A1. split; [exact A1|].
  destruct (Unicode.lowerOne c) as [|d [|e l]]; try discriminate.
  apply N.eqb_eq in A2. now subst.
Qed.

Lemma lowerAscii_char (a : ascii) :
  (Unicode.byte a < 128)%N ->
  Unicode.char
    (if ((65 <=? Unicode.byte a) && (Unicode.byte a <=? 90))%N
     then (Unicode.byte a + 32)%N else Unicode.byte a)
  = lowerAscii a.
Proof.
  intros _. unfold lowerAscii.
  destruct ((65 <=? Unicode.byte a) && (Unicode.byte a <=? 90))%N;
    [reflexivity|].
  apply ascii_N_embedding.
Qed.

Lemma lowerFrom_ascii (before : bool) (s : string) :
  isAscii s ->
  Unicode.encode
    (Unicode.lowerFrom before (map Unicode.byte (list_ascii_of_string s)))
  = asciiLower s.
Proof.
  revert before. induction s as [|a s IH]; intros before H; [reflexivity|].
  assert (Ha : (Unicode.byte a < 128)%N) by (apply H; now left).
  destruct (lowerOne_ascii _ Ha) as [E1 E2].
  cbn [list_ascii_of_string map Unicode.lowerFrom].
  rewrite E1, E2. cbn [app Unicode.encode]. rewrite IH.
  - unfold Unicode.encodeOne.
    assert (L : ((if ((65 <=? Unicode.byte a) && (Unicode.byte a <=? 90))
                  then Unicode.byte a + 32 else Unicode.byte a) <? 128)%N
                = true).
    { apply N.ltb_lt.
      destruct ((65 <=? Unicode.byte a) && (Unicode.byte a <=? 90))%N eqn:C;
        [|exact Ha].
      apply andb_true_iff in C. destruct C as [_ C]. apply N.leb_le in C. lia. }
    rewrite L. cbn [append asciiLower]. now rewrite lowerAscii_char.
  - intros b Hb. apply H. now right.
Qed.

(** On a text of ASCII characters [toLowerCase] puts each capital letter
    into its small letter and leaves the rest. *)
Lemma toLowerCase_ascii (s : string) :
  isAscii s -> JS.toLowerCase s = asciiLower s.
Proof.
  intros H. unfold JS.toLowerCase. rewrite (decode_ascii s H).
  now apply lowerFrom_ascii.
Qed.





Lemma asciiLower_app (a b : string) :
  asciiLower (a ++ b) = asciiLower a ++ asciiLower b.
Proof. induction a as [|c a IH]; simpl; [reflexivity | now rewrite IH]. Qed.



(* ------------------------------------------------------------------ *)
(** ** The visible list *)
(* ------------------------------------------------------------------ *)



(** Two tasks titled "A" and "B", searched for "a": only "A" is shown. *)
Example filtered_A_B :
  map Task.title
    (filtered [Sample.task "p07qmz4e" "B" "work" Sample.noon false;
               Sample.task "k3v9x2ab" "A" "health" (Sample.noon + 1) false]
              "all" "a")
  = ["A"].
Proof. reflexivity. Qed.

(** Unfiltered, the later task comes after the earlier one. *)
Example filtered_by_time :
  filtered [Sample.inTwoMinutes; Sample.inHalfMinute] "all" ""
  = [Sample.inHalfMinute; Sample.inTwoMinutes].
Proof. reflexivity. Qed.

(* ------------------------------------------------------------------ *)
(** ** The reminder scan *)
(* ------------------------------------------------------------------ *)

Section ReminderScan.
Variables getFullYear getMonth getDate : Z -> Z.

Lemma withinToday_spec (now iso : Z) :
  withinToday getFullYear getMonth getDate now iso = true
  <-> sameLocalDay getFullYear getMonth getDate iso now.
Proof.
  unfold withinToday, sameLocalDay.
  rewrite !andb_true_iff, !Z.eqb_eq. tauto.
Qed.

Lemma isDueSoon_spec (now whenISO : Z) :
  isDueSoon now whenISO 1 = true <-> now < whenISO <= now + 60000.
Proof.
  unfold isDueSoon. rewrite andb_true_iff, Z.ltb_lt, Z.leb_le. lia.
Qed.

Lemma due_dec (now : Z) (tk : Task.t) :
  negb (Task.done tk)
  && withinToday getFullYear getMonth getDate now (Task.whenISO tk)
  && isDueSoon now (Task.whenISO tk) 1 = true
  <-> due getFullYear getMonth getDate now tk.
Proof.
  unfold due.
  rewrite !andb_true_iff, negb_true_iff, withinToday_spec, isDueSoon_spec.
  tauto.
Qed.

(** C2. At a tick taken at [now], the scan selects a task of the list if and
    only if the task is not completed, its scheduled time is on the calendar
    day of [now] in local time, and the scheduled time is after [now] and at
    most one minute after it; the selection keeps the order of the list.  So a
    task that is not completed, due thirty seconds after [now] on the same
    day, is selected, and one due two minutes after [now] is not. *)
Theorem upcoming_selects_due (now : Z) (tasks : list Task.t) :
  Kept (due getFullYear getMonth getDate now) tasks
       (upcoming getFullYear getMonth getDate now tasks)
  /\ (forall tk,
        In tk (upcoming getFullYear getMonth getDate now tasks)
        <-> In tk tasks /\ due getFullYear getMonth getDate now tk)
  /\ (forall tk,
        In tk tasks -> Task.done tk = false ->
        sameLocalDay getFullYear getMonth getDate (Task.whenISO tk) now ->
        Task.whenISO tk = now + 30 * 1000 ->
        In tk (upcoming getFullYear getMonth getDate now tasks))
  /\ (forall tk,
        Task.whenISO tk = now + 2 * 60 * 1000 ->
        ~ In tk (upcoming getFullYear getMonth getDate now tasks)).
Proof.
  assert (K : Kept (due getFullYear getMonth getDate now) tasks
                   (upcoming getFullYear getMonth getDate now tasks)).
  { apply filter_Kept. intros tk. apply due_dec. }
  split; [exact K|]. split; [|split].
  - intros tk. now apply Kept_In.
  - intros tk Hin Hdone Hday Hwhen.
    apply (Kept_In _ _ _ tk K). split; [exact Hin|].
    split; [exact Hdone | split; [exact Hday | lia]].
  - intros tk Hwhen Hin.
    apply (Kept_In _ _ _ tk K) in Hin. destruct Hin as [_ [_ [_ H]]]. lia.
Qed.

End ReminderScan.

Lemma upcoming_selects_due_witness :
  upcoming UTC.getFullYear UTC.getMonth UTC.getDate Sample.noon
    [Sample.inTwoMinutes; Sample.inHalfMinute]
  = [Sample.inHalfMinute]
  /\ In Sample.inHalfMinute
       (upcoming UTC.getFullYear UTC.getMonth UTC.getDate Sample.noon
          [Sample.inTwoMinutes; Sample.inHalfMinute])
  /\ ~ In Sample.inTwoMinutes
       (upcoming UTC.getFullYear UTC.getMonth UTC.getDate Sample.noon
          [Sample.inTwoMinutes; Sample.inHalfMinute]).
Proof.
  split; [reflexivity|].
  destruct (upcoming_selects_due UTC.getFullYear UTC.getMonth UTC.getDate
              Sample.noon [Sample.inTwoMinutes; Sample.inHalfMinute])
    as [_ [_ [Hin Hout]]].
  split.
  - apply Hin.
    + right; left; reflexivity.
    + reflexivity.
    + repeat split; reflexivity.
    + reflexivity.
  - apply Hout. reflexivity.
Defined.

(* ------------------------------------------------------------------ *)
(** ** The task list under [removeTask] and [toggleDone] *)
(* ------------------------------------------------------------------ *)

Lemma setTasks_same (f : list Task.t -> list Task.t) (st : State) :
  f (tasks st) = tasks st -> setTasks f st = st.
Proof. destruct st; unfold setTasks; simpl. now intros ->. Qed.

Lemma map_unchanged {A : Type} (f : A -> A) (l : list A) :
  (forall x, In x l -> f x = x) -> map f l = l.
Proof.
  induction l as [|x l IH]; simpl; intros H; [reflexivity|].
  rewrite (H x (or_introl eq_refl)). f_equal. apply IH. intros y Hy.
  apply H. now right.
Qed.

(** C6. Removing by id leaves the task list without exactly the tasks that
    carry the id, the others in their order, and leaves the log list as it
    was, entries of the removed task included. *)
Theorem removeTask_drops_exactly_the_id (id : string) (st : State) :
  Kept (fun t => Task.id t <> id) (tasks st) (tasks (removeTask id st))
  /\ (forall t, In t (tasks (removeTask id st))
                <-> In t (tasks st) /\ Task.id t <> id)
  /\ logs (removeTask id st) = logs st
  /\ (forall l, In l (logs st) -> Log.taskId l = id ->
                In l (logs (removeTask id st))).
Proof.
  assert (K : Kept (fun t => Task.id t <> id) (tasks st)
                   (tasks (removeTask id st))).
  { apply filter_Kept. intros t.
    rewrite negb_true_iff. apply String.eqb_neq. }
  split; [exact K|]. split; [|split].
  - intros t. exact (Kept_In _ _ _ t K).
  - reflexivity.
  - intros l Hl _. exact Hl.
Qed.

Lemma removeTask_drops_exactly_the_id_witness :
  tasks (removeTask "k3v9x2ab"
           (mkState [Sample.inHalfMinute; Sample.inTwoMinutes]
                    [Sample.entryOf Sample.inHalfMinute] "" "all" false))
  = [Sample.inTwoMinutes]
  /\ In (Sample.entryOf Sample.inHalfMinute)
        (logs (removeTask "k3v9x2ab"
                 (mkState [Sample.inHalfMinute; Sample.inTwoMinutes]
                          [Sample.entryOf Sample.inHalfMinute] "" "all" false))).
Proof.
  split; [reflexivity|].
  apply (removeTask_drops_exactly_the_id "k3v9x2ab"
           (mkState [Sample.inHalfMinute; Sample.inTwoMinutes]
                    [Sample.entryOf Sample.inHalfMinute] "" "all" false)).
  - left; reflexivity.
  - reflexivity.
Defined.

(** C10. Toggling by id keeps the length and the order of the task list: the
    task at each position is the one that was there, with [done] inverted
    when its id is the one given and every other field as before, and the
    very same task otherwise.  Nothing else of the state changes, and when no
    task carries the id the state is the one before. *)
Theorem toggleDone_touches_done_only (id : string) (st : State) :
  List.length (tasks (toggleDone id st)) = List.length (tasks st)
  /\ (forall n t,
        nth_error (tasks st) n = Some t ->
        exists t',
          nth_error (tasks (toggleDone id st)) n = Some t'
          /\ sameButDone t t'
          /\ (Task.id t = id -> Task.done t' = negb (Task.done t))
          /\ (Task.id t <> id -> t' = t))
  /\ logs (toggleDone id st) = logs st
  /\ query (toggleDone id st) = query st
  /\ filterCat (toggleDone id st) = filterCat st
  /\ showAdd (toggleDone id st) = showAdd st
  /\ ((forall t, In t (tasks st) -> Task.id t <> id) -> toggleDone id st = st).
Proof.
  split; [|split; [|repeat split]].
  - unfold toggleDone, setTasks; simpl. apply length_map.
  - intros n t Hn. unfold toggleDone, setTasks; simpl.
    rewrite nth_error_map, Hn. simpl.
    destruct (Task.id t =? id)%string eqn:E.
    + eexists; split; [reflexivity|]. split; [|split].
      * unfold sameButDone; simpl. tauto.
      * reflexivity.
      * apply String.eqb_eq in E. intros H. contradiction.
    + eexists; split; [reflexivity|]. split; [|split].
      * unfold sameButDone. tauto.
      * apply String.eqb_neq in E. intros H. contradiction.
      * reflexivity.
  - intros H. unfold toggleDone. apply setTasks_same.
    apply map_unchanged. intros t Ht.
    destruct (Task.id t =? id)%string eqn:E; [|reflexivity].
    apply String.eqb_eq in E. now apply H in Ht.
Qed.

Lemma toggleDone_touches_done_only_witness :
  toggleDone "p07qmz4e" (mkState [Sample.inHalfMinute] [] "" "all" false)
  = mkState [Sample.inHalfMinute] [] "" "all" false.
Proof.
  apply (toggleDone_touches_done_only "p07qmz4e"
           (mkState [Sample.inHalfMinute] [] "" "all" false)).
  intros t [<-|[]]. discriminate.
Defined.

(* ------------------------------------------------------------------ *)
(** ** The log list *)
(* ------------------------------------------------------------------ *)

Lemma completeTask_tasks (end_ : Z) (reply : option string) (r : string)
    (stamp : Z) (task : Task.t) (st : State) :
  tasks (fst (completeTask end_ reply r stamp task st))
  = tasks (toggleDone (Task.id task) st).
Proof. unfold completeTask. destruct (0 <? _); reflexivity. Qed.

(** What a completion leaves in the log and shows to the user. *)
Lemma completeTask_logs (end_ : Z) (reply : option string) (r : string)
    (stamp : Z) (task : Task.t) (st : State) :
  exists note shown,
    completeTask end_ reply r stamp task st
    = (logOutcome r stamp task (mkOutcome "done" (lateness end_ task) note)
         (toggleDone (Task.id task) st), shown)
    /\ ((0 <? lateness end_ task) = true ->
        note = JS.orElse reply "" /\
        shown = [Prompt (latePrompt (lateness end_ task))])
    /\ ((0 <? lateness end_ task) = false ->
        note = "on-time" /\ shown = []).
Proof.
  unfold completeTask. destruct (0 <? lateness end_ task) eqn:E.
  - do 2 eexists. split; [reflexivity|]. split; [auto | discriminate].
  - do 2 eexists. split; [reflexivity|]. split; [discriminate | auto].
Qed.

Lemma submit_logs (r : string) (now : Z) (f : Form.t) (st st' : State)
    (shown : list Event) :
  submit r now f st = JS.Normal (st', shown) -> logs st' = logs st.
Proof.
  unfold submit. destruct (negb _).
  - intros H. now inversion H.
  - destruct (Form.when f); [|discriminate]. intros H. now inversion H.
Qed.

Lemma step_logs (a : Action) (st : State) :
  match a with
  | Complete row end_ reply r stamp =>
      exists out,
        logs (step a st)
        = Log.mk (uid r) (Task.id row) (Task.title row) (Task.whenISO row)
                 out stamp :: logs st
        /\ status out = "done" /\ lateMin out = lateness end_ row
  | _ => logs (step a st) = logs st
  end.
Proof.
  destruct a; simpl; try reflexivity.
  - destruct (submit r now f st) as [[st' shown]|err] eqn:E; [|reflexivity].
    eapply submit_logs; exact E.
  - destruct (completeTask_logs end_ reply r stamp row st)
      as [note [shown [E _]]].
    rewrite E. simpl. eexists. split; [reflexivity|]. split; reflexivity.
Qed.

Lemma run_logs (acts : list Action) (st : State) :
  exists newer,
    logs (run acts st) = (newer ++ logs st)%list
    /\ map Log.timestamp newer = rev (stamps acts).
Proof.
  revert st. induction acts as [|a acts IH]; intros st; simpl.
  - exists []. split; reflexivity.
  - destruct (IH (step a st)) as [newer [Hl Ht]]. rewrite Hl.
    pose proof (step_logs a st) as Hs.
    destruct a; try (exists newer; rewrite Hs; split; [reflexivity | exact Ht]).
    destruct Hs as [out [Hs _]]. rewrite Hs.
    eexists (newer ++ [_])%list. split.
    + rewrite <- app_assoc. reflexivity.
    + rewrite map_app, Ht. reflexivity.
Qed.

(** C7. [logOutcome] puts the new entry at the head of the log list and
    leaves the entries that were there behind it, unchanged and in their
    order.  No action of the component does anything else to the log list:
    a step leaves it alone or puts one entry at its head, so after any
    sequence of actions the old list is still there, under the entries
    recorded since, the latest of them first. *)
Theorem logs_grow_at_the_head_only :
  (forall r stamp task outcome st,
      logs (logOutcome r stamp task outcome st)
      = Log.mk (uid r) (Task.id task) (Task.title task) (Task.whenISO task)
               outcome stamp :: logs st)
  /\ (forall a st,
        logs (step a st) = logs st
        \/ exists entry, logs (step a st) = entry :: logs st)
  /\ (forall acts st,
        exists newer,
          logs (run acts st) = (newer ++ logs st)%list
          /\ map Log.timestamp newer = rev (stamps acts)).
Proof.
  split; [|split].
  - reflexivity.
  - intros a st. pose proof (step_logs a st) as H.
    destruct a; auto. destruct H as [out [H _]]. right. eexists. exact H.
  - apply run_logs.
Qed.

(* ------------------------------------------------------------------ *)
(** ** Task ids *)
(* ------------------------------------------------------------------ *)

Lemma ids_toggleDone (id : string) (st : State) :
  ids (toggleDone id st) = ids st.
Proof.
  unfold ids, toggleDone, setTasks; simpl. rewrite map_map.
  apply map_ext. intros t. now destruct (Task.id t =? id)%string.
Qed.

Lemma ids_completeTask (end_ : Z) (reply : option string) (r : string)
    (stamp : Z) (task : Task.t) (st : State) :
  ids (fst (completeTask end_ reply r stamp task st)) = ids st.
Proof.
  unfold ids. rewrite completeTask_tasks. apply ids_toggleDone.
Qed.

Lemma ids_addTask (task : Task.t) (st : State) :
  ids (addTask task st) = (ids st ++ [Task.id task])%list.
Proof. unfold ids, addTask, setTasks; simpl. apply map_app. Qed.

Lemma filter_keeps_ids_distinct (keep : Task.t -> bool) (ts : list Task.t) :
  NoDup (map Task.id ts) -> NoDup (map Task.id (filter keep ts)).
Proof.
  induction ts as [|t ts IH]; simpl; intros H; [constructor|].
  apply NoDup_cons_iff in H. destruct H as [Ht Hts].
  destruct (keep t); simpl; [|now apply IH].
  constructor; [|now apply IH].
  intros Hin. apply Ht. apply in_map_iff in Hin.
  destruct Hin as [u [Hu Hin]]. apply filter_In in Hin.
  apply in_map_iff. exists u. tauto.
Qed.

Lemma NoDup_snoc {A : Type} (l : list A) (x : A) :
  NoDup (l ++ [x]) <-> NoDup l /\ ~ In x l.
Proof.
  rewrite <- (Permutation_cons_append l x), NoDup_cons_iff. tauto.
Qed.

Lemma step_ids (a : Action) (st : State) :
  match a with
  | Submit f r now =>
      ids (step a st) = ids st
      \/ ids (step a st) = (ids st ++ [uid r])%list
  | Remove row =>
      ids (step a st)
      = map Task.id
          (filter (fun t => negb (Task.id t =? Task.id row)%string) (tasks st))
  | _ => ids (step a st) = ids st
  end.
Proof.
  destruct a; simpl; try reflexivity.
  - unfold submit. destruct (negb _); [now left|].
    destruct (Form.when f); [|now left]. right. apply ids_addTask.
  - apply ids_toggleDone.
  - apply ids_completeTask.
Qed.

(** C4, as the code has it.  [uid] draws an id at random and nothing checks
    a new id against the list.  The mounted list has distinct ids exactly
    when its two draws differ, and from a list with distinct ids:
    [toggleDone], [removeTask] and [completeTask] keep the ids distinct;
    [addTask] keeps them distinct exactly when the id of the new task is not
    in the list yet; so a step keeps them distinct whenever a submission's
    draw is new. *)
Theorem ids_stay_unique_while_draws_are_new :
  (forall now r1 r2,
      NoDup (ids (initialState None None now r1 r2)) <-> uid r1 <> uid r2)
  /\ (forall st,
        NoDup (ids st) ->
        (forall id, NoDup (ids (toggleDone id st)))
        /\ (forall id, NoDup (ids (removeTask id st)))
        /\ (forall end_ reply r stamp task,
              NoDup (ids (fst (completeTask end_ reply r stamp task st))))
        /\ (forall task,
              NoDup (ids (addTask task st)) <-> ~ In (Task.id task) (ids st))
        /\ (forall a,
              (forall f r now, a = Submit f r now -> ~ In (uid r) (ids st)) ->
              NoDup (ids (step a st)))).
Proof.
  split.
  - intros now r1 r2. unfold ids; simpl. split.
    + intros H E. inversion H as [|x l Hx _]; subst. apply Hx. now left.
    + intros H. constructor.
      * intros [E|[]]. now apply H.
      * constructor; [intros [] | constructor].
  - intros st Hst. split; [|split; [|split; [|split]]].
    + intros id. now rewrite ids_toggleDone.
    + intros id. unfold ids, removeTask, setTasks; simpl.
      now apply filter_keeps_ids_distinct.
    + intros. now rewrite ids_completeTask.
    + intros task. rewrite ids_addTask, NoDup_snoc. tauto.
    + intros a Ha. pose proof (step_ids a st) as Hs.
      destruct a; try (rewrite Hs; exact Hst).
      * destruct Hs as [Hs|Hs]; rewrite Hs; [exact Hst|].
        apply NoDup_snoc. split; [exact Hst|]. eapply Ha. reflexivity.
      * rewrite Hs. now apply filter_keeps_ids_distinct.
Qed.

Lemma ids_stay_unique_while_draws_are_new_witness :
  NoDup (ids Sample.mounted)
  /\ NoDup (ids (step (Submit Sample.walk "0.zq81mf0c9d" Sample.noon)
                    Sample.mounted)).
Proof.
  assert (H : NoDup (ids Sample.mounted)).
  { apply (proj1 ids_stay_unique_while_draws_are_new). discriminate. }
  split; [exact H|].
  apply (proj2 ids_stay_unique_while_draws_are_new Sample.mounted H).
  intros f r now E. injection E as _ <- _.
  simpl. intros [E|[E|[]]]; discriminate.
Defined.

(** C4, as the claim has it, fails: after a submission whose draw repeats
    the one a listed task got, two tasks of a reachable state share an id. *)
Lemma uid_can_repeat_an_id :
  reachable Sample.mounted
  /\ NoDup (ids Sample.mounted)
  /\ reachable Sample.resubmitted
  /\ ids Sample.resubmitted = ["k3v9x2ab"; "p07qmz4e"; "k3v9x2ab"]
  /\ ~ NoDup (ids Sample.resubmitted).
Proof.
  assert (R : reachable Sample.mounted) by apply reach_mount.
  split; [exact R|]. split; [|split; [|split]].
  - repeat constructor; simpl; intros H; intuition discriminate.
  - apply reach_step; [apply reach_step; [exact R | exact I] | reflexivity].
  - reflexivity.
  - change (ids Sample.resubmitted) with ["k3v9x2ab"; "p07qmz4e"; "k3v9x2ab"].
    intros H. inversion H as [|x l Hx _]; subst. apply Hx. right; now left.
Qed.

(* ------------------------------------------------------------------ *)
(** ** Completing a task *)
(* ------------------------------------------------------------------ *)

(** The lateness in integer arithmetic: the minutes between the scheduled
    time and the completion, to the nearest minute, and zero when early. *)
Lemma lateness_minutes (end_ : Z) (task : Task.t) :
  lateness end_ task = Z.max 0 ((end_ - Task.whenISO task + 30000) / 60000).
Proof.
  unfold lateness. rewrite Math_round_div by lia. f_equal.
  replace (2 * (end_ - Task.whenISO task) + 60000)
    with (2 * (end_ - Task.whenISO task + 30000)) by lia.
  apply Z.div_mul_cancel_l; lia.
Qed.

Lemma lateness_nearest (end_ : Z) (task : Task.t) :
  0 <= lateness end_ task
  /\ (end_ - Task.whenISO task < 30000 -> lateness end_ task = 0)
  /\ (30000 <= end_ - Task.whenISO task ->
      60000 * lateness end_ task - 30000 <= end_ - Task.whenISO task
      /\ end_ - Task.whenISO task < 60000 * lateness end_ task + 30000).
Proof.
  rewrite lateness_minutes.
  set (d := end_ - Task.whenISO task + 30000).
  pose proof (Z.div_mod d 60000 ltac:(lia)) as E.
  pose proof (Z.mod_pos_bound d 60000 ltac:(lia)) as B.
  split; [lia|]. split; intros H.
  - assert (d / 60000 <= 0) by (apply Z.lt_succ_r, Z.div_lt_upper_bound; lia).
    lia.
  - assert (0 <= d / 60000) by (apply Z.div_pos; lia).
    rewrite Z.max_r by lia. lia.
Qed.

(** Every task that carries the id of the completed one has its flag
    inverted, whatever it was. *)
Lemma completeTask_inverts_flag (end_ : Z) (reply : option string)
    (r : string) (stamp : Z) (task : Task.t) (st : State) (n : nat)
    (t : Task.t) :
  nth_error (tasks st) n = Some t ->
  Task.id t = Task.id task ->
  nth_error (tasks (fst (completeTask end_ reply r stamp task st))) n
  = Some (Task.with_done (negb (Task.done t)) t).
Proof.
  intros Hn Hid. rewrite completeTask_tasks.
  unfold toggleDone, setTasks; simpl. rewrite nth_error_map, Hn. simpl.
  apply String.eqb_eq in Hid. now rewrite Hid.
Qed.

(** C1, where the code departs from it.  The user ticks the checkbox of the
    first row and then presses "Mark Done" on it: the row handed to
    [completeTask] is completed already, the entry logged says "done", and
    the task comes out not completed. *)
Lemma completeTask_reopens_a_done_task :
  reachable Sample.ticked
  /\ In (Task.with_done true Sample.water) (visible Sample.ticked)
  /\ reachable Sample.marked
  /\ map (fun t => (Task.id t, Task.done t)) (tasks Sample.marked)
     = [("k3v9x2ab", false); ("p07qmz4e", false)]
  /\ map (fun l => (Log.taskId l, Log.outcome l)) (logs Sample.marked)
     = [("k3v9x2ab", mkOutcome "done" 0 "on-time")].
Proof.
  assert (R : reachable Sample.ticked).
  { apply reach_step; [apply reach_mount|]. left. reflexivity. }
  assert (V : In (Task.with_done true Sample.water) (visible Sample.ticked)).
  { left. reflexivity. }
  split; [exact R|]. split; [exact V|]. split; [|split].
  - apply reach_step; [exact R | exact V].
  - reflexivity.
  - reflexivity.
Qed.

(** C5. A completion appends one entry, with the computed lateness.  When
    the lateness is 0 nothing is asked and the note is "on-time".  When it is
    more than 0 the user is asked once for a reason; the note is the answer,
    and it is the empty string when the user dismisses the question or
    answers nothing. *)
Theorem completeTask_note (end_ : Z) (reply : option string) (r : string)
    (stamp : Z) (task : Task.t) (st : State) :
  exists entry,
    logs (fst (completeTask end_ reply r stamp task st)) = entry :: logs st
    /\ status (Log.outcome entry) = "done"
    /\ lateMin (Log.outcome entry) = lateness end_ task
    /\ (lateness end_ task = 0 ->
        snd (completeTask end_ reply r stamp task st) = []
        /\ note (Log.outcome entry) = "on-time")
    /\ (0 < lateness end_ task ->
        snd (completeTask end_ reply r stamp task st)
        = [Prompt (latePrompt (lateness end_ task))]
        /\ (reply = None \/ reply = Some "" -> note (Log.outcome entry) = "")
        /\ (forall s, reply = Some s -> note (Log.outcome entry) = s)).
Proof.
  destruct (completeTask_logs end_ reply r stamp task st)
    as [nt [shown [E [Hlate Hontime]]]].
  rewrite E. simpl. eexists. split; [reflexivity|]. simpl.
  split; [reflexivity|]. split; [reflexivity|]. split.
  - intros H0. destruct Hontime as [-> ->]; [apply Z.ltb_ge; lia|].
    split; reflexivity.
  - intros Hpos. destruct Hlate as [-> ->]; [now apply Z.ltb_lt|].
    split; [reflexivity|]. split.
    + intros [->| ->]; reflexivity.
    + intros s ->. simpl. unfold JS.truthy.
      destruct (s =? "")%string eqn:Es; [|reflexivity].
      apply String.eqb_eq in Es. now subst.
Qed.

Lemma completeTask_note_witness :
  snd (completeTask (Sample.noon + 20 * 60 * 1000) None "0.zq81mf0c9d"
         (Sample.noon + 20 * 60 * 1000) Sample.water Sample.mounted)
  = [Prompt "You were late by ~5 min. Why?"]
  /\ exists entry,
       logs (fst (completeTask (Sample.noon + 20 * 60 * 1000) None
                    "0.zq81mf0c9d" (Sample.noon + 20 * 60 * 1000)
                    Sample.water Sample.mounted))
       = [entry]
       /\ Log.outcome entry = mkOutcome "done" 5 "".
Proof.
  destruct (completeTask_note (Sample.noon + 20 * 60 * 1000) None
              "0.zq81mf0c9d" (Sample.noon + 20 * 60 * 1000)
              Sample.water Sample.mounted)
    as [entry [Hlogs [Hstatus [Hlate [_ Hpos]]]]].
  destruct Hpos as [Hshown [Hnone _]]; [reflexivity|].
  split; [exact Hshown|].
  exists entry. split; [exact Hlogs|].
  specialize (Hnone (or_introl eq_refl)).
  destruct entry as [i ti tt w [s l n] ts]; simpl in *.
  rewrite Hstatus, Hlate, Hnone. reflexivity.
Defined.

(* ------------------------------------------------------------------ *)
(** ** Creating a task *)
(* ------------------------------------------------------------------ *)

(** C8. Submitting the form with a title that is empty, or made only of
    what [trim] takes for whitespace (the space, the tab, the line ends, the
    no-break space and the other spaces of Unicode), shows the alert and
    creates no task: the state after is the state before. *)
Theorem submit_blank_title (r : string) (now : Z) (f : Form.t) (st : State) :
  (forall c, In c (Unicode.decode (Form.title f)) ->
             JS.isWhiteSpace c = true) ->
  submit r now f st = JS.Normal (st, [Alert "Please enter a title"])
  /\ tasks (step (Submit f r now) st) = tasks st
  /\ step (Submit f r now) st = st.
Proof.
  intros H.
  assert (E : submit r now f st
              = JS.Normal (st, [Alert "Please enter a title"])).
  { unfold submit. now rewrite (trim_white _ H). }
  split; [exact E|]. simpl. now rewrite E.
Qed.

Lemma submit_blank_title_witness :
  Unicode.decode Sample.blankTitle = [32%N; 160%N; 9%N; 12288%N]
  /\ submit "0.zq81mf0c9d" Sample.noon
       (Form.mk Sample.blankTitle "health" (Some Sample.noon) "none"
                (Some 15) false false true)
       Sample.mounted
     = JS.Normal (Sample.mounted, [Alert "Please enter a title"]).
Proof.
  assert (D : Unicode.decode Sample.blankTitle = [32%N; 160%N; 9%N; 12288%N])
    by (vm_compute; reflexivity).
  split; [exact D|].
  apply (submit_blank_title "0.zq81mf0c9d" Sample.noon
           (Form.mk Sample.blankTitle "health" (Some Sample.noon) "none"
                    (Some 15) false false true)
           Sample.mounted).
  cbn [Form.title]. rewrite D.
  intros c [<-|[<-|[<-|[<-|[]]]]]; reflexivity.
Defined.

(* ------------------------------------------------------------------ *)
(** ** The suggestion *)
(* ------------------------------------------------------------------ *)

(** The lateness of every entry the component records is zero or more. *)
Lemma reachable_lateness_nonneg (st : State) :
  reachable st -> Forall (fun l => 0 <= lateMin (Log.outcome l)) (logs st).
Proof.
  induction 1 as [now r1 r2|st a R IH En].
  - constructor.
  - pose proof (step_logs a st) as Hs.
    destruct a; try (rewrite Hs; exact IH).
    destruct Hs as [out [-> [_ Hl]]]. constructor; [|exact IH].
    simpl. rewrite Hl. apply lateness_nearest.
Qed.

Lemma late_filter_nonzero (logs : list Log.t) :
  Forall (fun l => 0 <= lateMin (Log.outcome l)) logs ->
  List.length (filter (fun l => 0 <? lateMin (Log.outcome l)) logs)
  = lateCount logs.
Proof.
  intros H. unfold lateCount. f_equal. apply filter_ext_in.
  intros l Hl. rewrite Forall_forall in H. specialize (H l Hl).
  destruct (0 <? _) eqn:E1, (_ =? 0) eqn:E2; simpl; try reflexivity; lia.
Qed.

(** C9. The suggestion depends on the log list alone, whose entries record
    a lateness of zero or more: with no entry it is the generic prompt; with
    entries of which at least three have a lateness other than zero it is
    the scheduling tip; with entries of which fewer have, the encouragement. *)
Theorem aiSuggestion_thresholds (logs : list Log.t) :
  Forall (fun l => 0 <= lateMin (Log.outcome l)) logs ->
  (logs = [] -> aiSuggestion logs = suggestNoLogs)
  /\ (logs <> [] -> (3 <= lateCount logs)%nat ->
      aiSuggestion logs = suggestLate)
  /\ (logs <> [] -> (lateCount logs < 3)%nat ->
      aiSuggestion logs = suggestMomentum).
Proof.
  intros H. unfold aiSuggestion. rewrite (late_filter_nonzero logs H).
  split; [|split].
  - intros ->. reflexivity.
  - intros Hne Hc. destruct logs; [contradiction|].
    cbn [List.length Nat.eqb]. apply Nat.leb_le in Hc. now rewrite Hc.
  - intros Hne Hc. destruct logs; [contradiction|].
    cbn [List.length Nat.eqb]. apply Nat.leb_gt in Hc. now rewrite Hc.
Qed.

Lemma aiSuggestion_thresholds_witness :
  aiSuggestion Sample.threeLate = suggestLate.
Proof.
  apply (aiSuggestion_thresholds Sample.threeLate).
  - repeat constructor; discriminate.
  - discriminate.
  - apply Nat.le_refl.
Defined.

(* ------------------------------------------------------------------ *)
(** ** How the handlers compose *)
(* ------------------------------------------------------------------ *)

Lemma with_done_twice (t : Task.t) :
  Task.with_done (negb (negb (Task.done t)))
    (Task.with_done (negb (Task.done t)) t) = t.
Proof. destruct t as [i ti c w e rp ch d cr]. simpl. now rewrite negb_involutive. Qed.

(** X1. Toggling the same id twice gives back the state: every task that
    carries the id has its flag inverted twice, nothing else is touched. *)
Theorem toggleDone_twice (id : string) (st : State) :
  toggleDone id (toggleDone id st) = st.
Proof.
  destruct st as [ts ls q c sa]. unfold toggleDone, setTasks; simpl.
  f_equal. rewrite map_map. apply map_unchanged. intros t _.
  destruct (Task.id t =? id)%string eqn:E; simpl; rewrite E.
  - apply with_done_twice.
  - reflexivity.
Qed.

(** The tasks of a list that carry an id. *)
Lemma removeTask_length (id : string) (ts : list Task.t) :
  (List.length (filter (fun t => negb (Task.id t =? id)%string) ts)
   + List.length (filter (fun t => (Task.id t =? id)%string) ts)
   = List.length ts)%nat.
Proof.
  induction ts as [|t ts IH]; simpl; [reflexivity|].
  destruct (Task.id t =? id)%string; simpl; lia.
Qed.

(** X2. After [removeTask] no task of the list carries the id, a second
    removal changes nothing, and the list is shorter by the number of tasks
    that carried the id: one click removes them all when an id repeats. *)
Theorem removeTask_removes_all (id : string) (st : State) :
  (forall t, In t (tasks (removeTask id st)) -> Task.id t <> id)
  /\ removeTask id (removeTask id st) = removeTask id st
  /\ (List.length (tasks (removeTask id st))
      + List.length (filter (fun t => (Task.id t =? id)%string) (tasks st))
      = List.length (tasks st))%nat.
Proof.
  split; [|split].
  - intros t Ht. unfold removeTask, setTasks in Ht; simpl in Ht.
    apply filter_In in Ht. destruct Ht as [_ Ht].
    apply negb_true_iff, String.eqb_neq in Ht. exact Ht.
  - unfold removeTask at 1. apply setTasks_same.
    apply filter_all. intros t Ht.
    unfold removeTask, setTasks in Ht; simpl in Ht.
    apply filter_In in Ht. tauto.
  - unfold removeTask, setTasks; simpl. apply removeTask_length.
Qed.

(** X3. Adding a task whose id is not in the list and then removing by that
    id gives back the task list and the log list. *)
Theorem removeTask_undoes_addTask (task : Task.t) (st : State) :
  ~ In (Task.id task) (ids st) ->
  tasks (removeTask (Task.id task) (addTask task st)) = tasks st
  /\ logs (removeTask (Task.id task) (addTask task st)) = logs st.
Proof.
  intros Hnew. split; [|reflexivity].
  unfold removeTask, addTask, setTasks, setShowAdd; simpl.
  rewrite filter_app. simpl. rewrite String.eqb_refl. simpl.
  rewrite app_nil_r. apply filter_all. intros t Ht.
  apply negb_true_iff, String.eqb_neq. intros E. apply Hnew.
  unfold ids. rewrite <- E. now apply in_map.
Qed.

Lemma removeTask_undoes_addTask_witness :
  tasks (removeTask "p07qmz4e"
           (addTask Sample.inTwoMinutes
              (mkState [Sample.inHalfMinute] [] "" "all" true)))
  = [Sample.inHalfMinute].
Proof.
  apply (removeTask_undoes_addTask Sample.inTwoMinutes
           (mkState [Sample.inHalfMinute] [] "" "all" true)).
  simpl. intros [E|[]]. discriminate.
Defined.

(** X4. Toggling and removing do not get in each other's way: whatever the
    two ids, the order of a [toggleDone] and a [removeTask], or of two
    [toggleDone]s, does not matter. *)
Theorem toggleDone_removeTask_commute (a b : string) (st : State) :
  toggleDone a (removeTask b st) = removeTask b (toggleDone a st)
  /\ toggleDone a (toggleDone b st) = toggleDone b (toggleDone a st).
Proof.
  destruct st as [ts ls q c sa]. unfold toggleDone, removeTask, setTasks; simpl.
  split; f_equal.
  - induction ts as [|t ts IH]; simpl; [reflexivity|].
    destruct (Task.id t =? a)%string eqn:Ea, (Task.id t =? b)%string eqn:Eb;
      simpl; rewrite ?Ea, ?Eb; simpl; now rewrite ?IH.
  - rewrite !map_map. apply map_ext. intros t.
    destruct (Task.id t =? a)%string eqn:Ea, (Task.id t =? b)%string eqn:Eb;
      simpl; rewrite ?Ea, ?Eb; reflexivity.
Qed.

(* ------------------------------------------------------------------ *)
(** ** The visible list under the handlers *)
(* ------------------------------------------------------------------ *)

Lemma insert_front (x : Task.t) (l : list Task.t) :
  Forall (whenLe x) l -> JS.insert byWhen x l = x :: l.
Proof.
  destruct l as [|y l]; simpl; [reflexivity|]. intros H.
  apply Forall_inv in H. unfold whenLe in H. unfold byWhen.
  destruct (_ <=? 0) eqn:E; [reflexivity|]. apply Z.leb_gt in E. lia.
Qed.

Lemma insert_then_filter (p : Task.t -> bool) (x : Task.t)
    (l : list Task.t) :
  StronglySorted whenLe l ->
  filter p (JS.insert byWhen x l)
  = if p x then JS.insert byWhen x (filter p l) else filter p l.
Proof.
  induction 1 as [|y l Hs IH Hy]; simpl.
  - destruct (p x); reflexivity.
  - destruct (byWhen x y <=? 0) eqn:E; simpl.
    + destruct (p x) eqn:Px; [|reflexivity].
      destruct (p y) eqn:Py; simpl; [now rewrite E|].
      rewrite insert_front; [reflexivity|].
      apply Z.leb_le in E. unfold byWhen in E.
      apply Forall_forall. intros z Hz. apply filter_In in Hz.
      rewrite Forall_forall in Hy. specialize (Hy z (proj1 Hz)).
      unfold whenLe in *. lia.
    + rewrite IH. destruct (p y) eqn:Py, (p x) eqn:Px; simpl;
        rewrite ?E; reflexivity.
Qed.

Lemma sort_then_filter (p : Task.t -> bool) (l : list Task.t) :
  filter p (JS.sort byWhen l) = JS.sort byWhen (filter p l).
Proof.
  induction l as [|x l IH]; simpl; [reflexivity|].
  rewrite insert_then_filter by apply sort_byWhen_sorted.
  rewrite IH. destruct (p x); reflexivity.
Qed.

Lemma filter_swap (p q : Task.t -> bool) (l : list Task.t) :
  filter p (filter q l) = filter q (filter p l).
Proof.
  induction l as [|x l IH]; simpl; [reflexivity|].
  destruct (p x) eqn:Px, (q x) eqn:Qx; simpl; rewrite ?Px, ?Qx, IH; reflexivity.
Qed.

Lemma filtered_then_filter (p : Task.t -> bool) (ts : list Task.t)
    (c q : string) :
  filtered (filter p ts) c q = filter p (filtered ts c q).
Proof.
  unfold filtered. rewrite sort_then_filter. f_equal.
  rewrite (filter_swap p). f_equal. apply filter_swap.
Qed.

(** X5. Removing a task takes its rows out of the visible list and leaves
    the other rows where they were. *)
Theorem visible_after_removeTask (id : string) (st : State) :
  visible (removeTask id st)
  = filter (fun t => negb (Task.id t =? id)%string) (visible st).
Proof.
  unfold visible, removeTask, setTasks; simpl. apply filtered_then_filter.
Qed.

Section SameKeys.
(** A change to tasks that leaves title, category and time alone. *)
Variable g : Task.t -> Task.t.
Hypothesis g_title : forall t, Task.title (g t) = Task.title t.
Hypothesis g_category : forall t, Task.category (g t) = Task.category t.
Hypothesis g_when : forall t, Task.whenISO (g t) = Task.whenISO t.

Lemma insert_same_keys (x : Task.t) (l : list Task.t) :
  JS.insert byWhen (g x) (map g l) = map g (JS.insert byWhen x l).
Proof.
  induction l as [|y l IH]; simpl; [reflexivity|].
  unfold byWhen at 1 3. rewrite !g_when.
  destruct (_ <=? 0); simpl; [reflexivity | now rewrite IH].
Qed.

Lemma filtered_same_keys (ts : list Task.t) (c q : string) :
  filtered (map g ts) c q = map g (filtered ts c q).
Proof.
  unfold filtered.
  induction ts as [|t ts IH]; simpl; [reflexivity|].
  rewrite g_category.
  destruct (if (c =? "all")%string then true
            else (Task.category t =? c)%string); simpl; [|exact IH].
  rewrite g_title.
  destruct (JS.includes _ _); simpl; [|exact IH].
  rewrite IH. apply insert_same_keys.
Qed.
End SameKeys.

(** X6. Toggling a task never moves or hides a row: the visible list after
    is the visible list before, row by row, with the flag inverted on the
    rows that carry the id. *)
Theorem visible_after_toggleDone (id : string) (st : State) :
  visible (toggleDone id st)
  = map (fun t => if (Task.id t =? id)%string
                  then Task.with_done (negb (Task.done t)) t
                  else t)
        (visible st)
  /\ map Task.id (visible (toggleDone id st)) = map Task.id (visible st).
Proof.
  assert (E : visible (toggleDone id st)
              = map (fun t => if (Task.id t =? id)%string
                              then Task.with_done (negb (Task.done t)) t
                              else t)
                    (visible st)).
  { unfold visible, toggleDone, setTasks; simpl.
    apply filtered_same_keys; intros t;
      destruct (Task.id t =? id)%string; reflexivity. }
  split; [exact E|]. rewrite E, map_map. apply map_ext.
  intros t. destruct (Task.id t =? id)%string; reflexivity.
Qed.

Lemma filter_of_rearranged (p : Task.t -> bool) (ts ts' : list Task.t) :
  Permutation ts ts' -> Permutation (filter p ts) (filter p ts').
Proof.
  induction 1 as [|x l l' _ IH|x y l|l l' l'' _ IH1 _ IH2]; simpl.
  - constructor.
  - destruct (p x); [now constructor | exact IH].
  - destruct (p x), (p y); try reflexivity. apply perm_swap.
  - now transitivity (filter p l').
Qed.

Lemma filter_keeps_times_distinct (keep : Task.t -> bool)
    (ts : list Task.t) :
  NoDup (map Task.whenISO ts) -> NoDup (map Task.whenISO (filter keep ts)).
Proof.
  induction ts as [|t ts IH]; simpl; intros H; [constructor|].
  apply NoDup_cons_iff in H. destruct H as [Ht Hts].
  destruct (keep t); simpl; [|now apply IH].
  constructor; [|now apply IH].
  intros Hin. apply Ht. apply in_map_iff in Hin.
  destruct Hin as [u [Hu Hin]]. apply filter_In in Hin.
  apply in_map_iff. exists u. tauto.
Qed.

Lemma same_time_same_task (ts : list Task.t) (a b : Task.t) :
  NoDup (map Task.whenISO ts) -> In a ts -> In b ts ->
  Task.whenISO a = Task.whenISO b -> a = b.
Proof.
  induction ts as [|t ts IH]; simpl; intros H Ha Hb E; [contradiction|].
  apply NoDup_cons_iff in H. destruct H as [Ht Hts].
  destruct Ha as [<-|Ha], Hb as [<-|Hb]; auto.
  - exfalso. apply Ht. rewrite E. now apply in_map.
  - exfalso. apply Ht. rewrite <- E. now apply in_map.
Qed.

(** Two lists in ascending order of time that hold the same tasks, no two
    at the same time, are the same list. *)
Lemma ascending_is_unique (l1 l2 : list Task.t) :
  StronglySorted whenLe l1 -> StronglySorted whenLe l2 ->
  Permutation l1 l2 -> NoDup (map Task.whenISO l1) -> l1 = l2.
Proof.
  intros S1. revert l2.
  induction S1 as [|x l1 S1 IH Hx]; intros l2 S2 P N.
  - apply Permutation_nil in P. now subst.
  - destruct S2 as [|y l2 S2 Hy].
    + symmetry in P. apply Permutation_nil in P. discriminate.
    + assert (Exy : x = y).
      { assert (Hxin : In x (y :: l2)).
        { eapply Permutation_in; [exact P | now left]. }
        assert (Hyin : In y (x :: l1)).
        { eapply Permutation_in; [symmetry; exact P | now left]. }
        apply (same_time_same_task (x :: l1)); auto; [now left|].
        rewrite Forall_forall in Hx, Hy. unfold whenLe in *.
        destruct Hxin as [->|Hxin]; [reflexivity|].
        destruct Hyin as [->|Hyin]; [reflexivity|].
        specialize (Hx y Hyin). specialize (Hy x Hxin). lia. }
      subst y. f_equal. apply IH; auto.
      * eapply Permutation_cons_inv; exact P.
      * simpl in N. now apply NoDup_cons_iff in N.
Qed.

(** X7. When no two tasks are scheduled at the same time, the visible list
    does not depend on the order the task list holds them in. *)
Theorem visible_ignores_task_order (ts ts' : list Task.t) (c q : string) :
  Permutation ts ts' ->
  NoDup (map Task.whenISO ts) ->
  filtered ts c q = filtered ts' c q.
Proof.
  intros P N. apply ascending_is_unique.
  - apply sort_byWhen_sorted.
  - apply sort_byWhen_sorted.
  - unfold filtered. rewrite !sort_perm.
    now do 2 apply filter_of_rearranged.
  - unfold filtered.
    eapply Permutation_NoDup.
    + apply Permutation_map. symmetry. apply sort_perm.
    + now do 2 apply filter_keeps_times_distinct.
Qed.

Lemma visible_ignores_task_order_witness :
  filtered [Sample.inTwoMinutes; Sample.inHalfMinute] "all" ""
  = filtered [Sample.inHalfMinute; Sample.inTwoMinutes] "all" "".
Proof.
  apply (visible_ignores_task_order
           [Sample.inTwoMinutes; Sample.inHalfMinute]
           [Sample.inHalfMinute; Sample.inTwoMinutes] "all" "").
  - apply perm_swap.
  - simpl. constructor; [|constructor; [intros [] | constructor]].
    intros [E|[]]. discriminate.
Defined.

(** Two tasks at one time are shown in the order the list has them. *)
Example visible_keeps_order_of_ties :
  map Task.id
    (filtered [Sample.task "b" "B" "work" Sample.noon false;
               Sample.task "a" "A" "work" Sample.noon false] "all" "")
  = ["b"; "a"].
Proof. reflexivity. Qed.

Lemma append_assoc (a b c : string) : (a ++ b) ++ c = a ++ (b ++ c).
Proof. induction a as [|x a IH]; simpl; [reflexivity | now rewrite IH]. Qed.

Lemma isAscii_app (a b : string) : isAscii a -> isAscii b -> isAscii (a ++ b).
Proof.
  intros Ha Hb. induction a as [|x a IH]; simpl; [exact Hb|].
  intros y [<-|Hy].
  - apply Ha. now left.
  - apply IH; [|exact Hy]. intros z Hz. apply Ha. now right.
Qed.

Lemma includes_longer (s a q b : string) :
  isAscii s -> isAscii a -> isAscii q -> isAscii b ->
  JS.includes (JS.toLowerCase s) (JS.toLowerCase (a ++ q ++ b)) = true ->
  JS.includes (JS.toLowerCase s) (JS.toLowerCase q) = true.
Proof.
  intros Hs Ha Hq Hb.
  rewrite (toLowerCase_ascii s Hs), (toLowerCase_ascii q Hq).
  rewrite (toLowerCase_ascii (a ++ q ++ b))
    by (apply isAscii_app; [exact Ha | now apply isAscii_app]).
  rewrite !includes_spec, !asciiLower_app.
  intros [pre [post E]].
  exists (pre ++ asciiLower a), (asciiLower b ++ post).
  rewrite E, !append_assoc. reflexivity.
Qed.

Lemma filter_implied (p q : Task.t -> bool) (l : list Task.t) :
  (forall t, In t l -> p t = true -> q t = true) ->
  filter p (filter q l) = filter p l.
Proof.
  intros H. induction l as [|x l IH]; simpl; [reflexivity|].
  assert (IH' : filter p (filter q l) = filter p l).
  { apply IH. intros t Ht. apply H. now right. }
  destruct (q x) eqn:Qx; simpl.
  - now rewrite IH'.
  - destruct (p x) eqn:Px; [|exact IH'].
    apply (H x (or_introl eq_refl)) in Px. congruence.
Qed.

(** X8. A category shows the rows of that category among those shown under
    "all".  Where the titles and the search text are ASCII, typing more
    narrows the list: when the search text grows, at either end, the new
    visible list is the one shown before, filtered by the new text, its rows
    in the order they had. *)
Theorem visible_narrows (ts : list Task.t) (c a q b : string) :
  filtered ts c q
  = filter (fun t => if (c =? "all")%string then true
                     else (Task.category t =? c)%string)
           (filtered ts "all" q)
  /\ ((forall t, In t ts -> isAscii (Task.title t)) ->
      isAscii a -> isAscii q -> isAscii b ->
      filtered ts c (a ++ q ++ b)
      = filter (fun t => JS.includes (JS.toLowerCase (Task.title t))
                                     (JS.toLowerCase (a ++ q ++ b)))
               (filtered ts c q)).
Proof.
  split.
  - unfold filtered at 2. rewrite sort_then_filter. simpl.
    unfold filtered. f_equal. rewrite filter_swap. f_equal.
    rewrite (filter_all (fun _ => true)); reflexivity.
  - intros Hts Ha Hq Hb. unfold filtered. rewrite sort_then_filter. f_equal.
    symmetry. apply filter_implied. intros t Ht.
    apply filter_In in Ht. destruct Ht as [Ht _].
    apply includes_longer; auto.
Qed.

(** Outside ASCII typing more can widen the list: the task titled alpha
    sigma is not found by the sigma alone and is found by its whole title. *)
Example visible_can_widen :
  filtered [Sample.alphaSigma] "all" Sample.sigma = []
  /\ filtered [Sample.alphaSigma] "all"
       (Unicode.encode [913%N] ++ Sample.sigma ++ "")
     = [Sample.alphaSigma].
Proof. split; vm_compute; reflexivity. Qed.

(* ------------------------------------------------------------------ *)
(** ** [trim] and the titles of tasks *)
(* ------------------------------------------------------------------ *)

Lemma dropWhiteSpace_head (l l' : list N) (c : N) :
  Unicode.dropWhiteSpace l = c :: l' -> Unicode.isWhiteSpace c = false.
Proof.
  induction l as [|d l IH]; cbn [Unicode.dropWhiteSpace]; [discriminate|].
  destruct (Unicode.isWhiteSpace d) eqn:W; [exact IH|].
  intros E. injection E as <- _. exact W.
Qed.

Lemma dropWhiteSpace_nothing (l : list N) :
  Unicode.dropWhiteSpace l = [] ->
  forall c, In c l -> JS.isWhiteSpace c = true.
Proof.
  induction l as [|d l IH]; cbn [Unicode.dropWhiteSpace]; [intros _ c []|].
  destruct (Unicode.isWhiteSpace d) eqn:W; [|discriminate].
  intros E c [<-|Hc]; [exact W | now apply IH].
Qed.

Lemma encode_nothing (l : list N) : Unicode.encode l = "" -> l = [].
Proof.
  destruct l as [|c l]; [reflexivity|]. cbn [Unicode.encode].
  unfold Unicode.encodeOne.
  destruct (c <? 128)%N, (c <? 2048)%N, (c <? 65536)%N, (c <? 1114112)%N;
    discriminate.
Qed.

Lemma trim_blank_iff (s : string) : JS.trim s = "" <-> blank s.
Proof.
  split; [|apply trim_white].
  unfold JS.trim, blank. intros E. apply encode_nothing in E.
  apply (f_equal (@rev N)) in E. rewrite rev_involutive in E. simpl in E.
  destruct (Unicode.dropWhiteSpace (Unicode.decode s)) as [|c l] eqn:D.
  - now apply dropWhiteSpace_nothing.
  - exfalso. apply dropWhiteSpace_head in D.
    pose proof (dropWhiteSpace_nothing _ E c) as W.
    unfold JS.isWhiteSpace in W. rewrite W in D; [discriminate|].
    apply in_rev. rewrite rev_involutive. now left.
Qed.

(* ------------------------------------------------------------------ *)
(** ** Creating a task, continued *)
(* ------------------------------------------------------------------ *)



(** X11. Submitting a title that is not blank with a date that is not one
    throws: no task is created, nothing is shown, and the state, the open
    modal included, is the one before. *)
Theorem submit_invalid_date_throws (r : string) (now : Z) (f : Form.t)
    (st : State) :
  ~ blank (Form.title f) ->
  Form.when f = None ->
  submit r now f st = JS.Throw "RangeError"
  /\ step (Submit f r now) st = st.
Proof.
  intros Hb Hw.
  assert (Ht : JS.truthy (JS.trim (Form.title f)) = true).
  { unfold JS.truthy. apply negb_true_iff, String.eqb_neq.
    intros E. apply Hb. now apply trim_blank_iff. }
  assert (E : submit r now f st = JS.Throw "RangeError").
  { unfold submit. now rewrite Ht, Hw. }
  split; [exact E|]. simpl. now rewrite E.
Qed.

Lemma submit_invalid_date_throws_witness :
  step (Submit (Form.mk "Walk" "health" None "none" (Some 20)
                        false false true)
               "0.zq81mf0c9d" Sample.noon)
       (step OpenAdd Sample.mounted)
  = step OpenAdd Sample.mounted.
Proof.
  apply (submit_invalid_date_throws "0.zq81mf0c9d" Sample.noon
           (Form.mk "Walk" "health" None "none" (Some 20) false false true)
           (step OpenAdd Sample.mounted)).
  - intros H. specialize (H 87%N (or_introl eq_refl)). discriminate.
  - reflexivity.
Defined.




(* ------------------------------------------------------------------ *)
(** ** Completing a task, continued *)
(* ------------------------------------------------------------------ *)

(** X13. A completion counts as on time until thirty seconds after the
    scheduled time: the lateness is 0, and the user is not asked, exactly
    when the completion comes less than 30000 ms after it.  The lateness
    never goes down as the completion comes later, and a completion a whole
    number of minutes late has that number as its lateness. *)
Theorem lateness_from_thirty_seconds (task : Task.t) :
  (forall end_, lateness end_ task = 0 <-> end_ - Task.whenISO task < 30000)
  /\ (forall end_ reply r stamp st,
        snd (completeTask end_ reply r stamp task st) = []
        <-> end_ - Task.whenISO task < 30000)
  /\ (forall end_ end', end_ <= end' -> lateness end_ task <= lateness end' task)
  /\ (forall m, 0 <= m -> lateness (Task.whenISO task + 60000 * m) task = m).
Proof.
  assert (A : forall end_,
             lateness end_ task = 0 <-> end_ - Task.whenISO task < 30000).
  { intros end_. pose proof (lateness_nearest end_ task) as [H0 [H1 H2]].
    split; [|exact H1]. intros E.
    destruct (Z_lt_ge_dec (end_ - Task.whenISO task) 30000) as [L|G]; [exact L|].
    specialize (H2 ltac:(lia)). lia. }
  split; [exact A|]. split; [|split].
  - intros end_ reply r stamp st. rewrite <- A.
    pose proof (lateness_nearest end_ task) as [H0 _].
    unfold completeTask. destruct (0 <? lateness end_ task) eqn:E; simpl.
    + apply Z.ltb_lt in E. split; [discriminate | lia].
    + apply Z.ltb_ge in E. split; [lia | reflexivity].
  - intros end_ end' H. rewrite !lateness_minutes.
    apply Z.max_le_compat_l. apply Z.div_le_mono; lia.
  - intros m Hm.
    pose proof (lateness_nearest (Task.whenISO task + 60000 * m) task)
      as [H0 [H1 H2]].
    destruct (Z.eq_dec m 0) as [->|Hne].
    + apply H1. lia.
    + specialize (H2 ltac:(lia)). lia.
Qed.

Lemma unique_id_position (ts : list Task.t) (n k : nat) (a b : Task.t) :
  NoDup (map Task.id ts) ->
  nth_error ts n = Some a -> nth_error ts k = Some b ->
  Task.id a = Task.id b -> n = k.
Proof.
  intros N Ha Hb E.
  apply (proj1 (NoDup_nth_error (map Task.id ts)) N).
  - rewrite length_map. apply nth_error_Some. congruence.
  - rewrite !nth_error_map, Ha, Hb. simpl. now rewrite E.
Qed.

(** X14. Where the ids of the list are distinct, completing a row that is
    not done marks its task done and leaves every other task as it was: the
    list after holds, position by position, the tasks it held, the completed
    one with its flag set. *)
Theorem completeTask_marks_open_task (end_ : Z) (reply : option string)
    (r : string) (stamp : Z) (row : Task.t) (st : State) (n : nat) :
  NoDup (ids st) ->
  nth_error (tasks st) n = Some row ->
  Task.done row = false ->
  nth_error (tasks (fst (completeTask end_ reply r stamp row st))) n
  = Some (Task.with_done true row)
  /\ forall k t,
       k <> n -> nth_error (tasks st) k = Some t ->
       nth_error (tasks (fst (completeTask end_ reply r stamp row st))) k
       = Some t.
Proof.
  intros N Hn Hd. split.
  - rewrite (completeTask_inverts_flag _ _ _ _ row st n row Hn eq_refl).
    now rewrite Hd.
  - intros k t Hk Ht. rewrite completeTask_tasks.
    unfold toggleDone, setTasks; simpl. rewrite nth_error_map, Ht. simpl.
    destruct (Task.id t =? Task.id row)%string eqn:E; [|reflexivity].
    apply String.eqb_eq in E. exfalso. apply Hk.
    exact (unique_id_position (tasks st) k n t row N Ht Hn E).
Qed.

Lemma completeTask_marks_open_task_witness :
  map Task.done
    (tasks (fst (completeTask (Sample.noon + 15 * 60 * 1000) None
                   "0.zq81mf0c9d" (Sample.noon + 15 * 60 * 1000)
                   Sample.water Sample.mounted)))
  = [true; false].
Proof.
  destruct (completeTask_marks_open_task (Sample.noon + 15 * 60 * 1000) None
              "0.zq81mf0c9d" (Sample.noon + 15 * 60 * 1000)
              Sample.water Sample.mounted 0)
    as [H0 H1].
  - simpl. constructor; [|constructor; [intros [] | constructor]].
    intros [E|[]]. discriminate.
  - reflexivity.
  - reflexivity.
  - reflexivity.
Defined.

Lemma flip_twice (id : string) (ts : list Task.t) :
  map (fun t => if (Task.id t =? id)%string
                then Task.with_done (negb (Task.done t)) t else t)
      (map (fun t => if (Task.id t =? id)%string
                     then Task.with_done (negb (Task.done t)) t else t)
           ts)
  = ts.
Proof.
  rewrite map_map. apply map_unchanged. intros t _.
  destruct (Task.id t =? id)%string eqn:E; simpl; rewrite E.
  - apply with_done_twice.
  - reflexivity.
Qed.

(** X15. Pressing "Mark Done" twice on a task leaves the task list as it
    was before the first press, and two more entries in the log. *)
Theorem completeTask_twice (e1 e2 : Z) (reply1 reply2 : option string)
    (r1 r2 : string) (s1 s2 : Z) (row row' : Task.t) (st : State) :
  Task.id row' = Task.id row ->
  tasks (fst (completeTask e2 reply2 r2 s2 row'
                (fst (completeTask e1 reply1 r1 s1 row st))))
  = tasks st
  /\ List.length
       (logs (fst (completeTask e2 reply2 r2 s2 row'
                     (fst (completeTask e1 reply1 r1 s1 row st)))))
     = S (S (List.length (logs st))).
Proof.
  intros E. split.
  - rewrite completeTask_tasks. unfold toggleDone at 1, setTasks; simpl.
    rewrite completeTask_tasks. unfold toggleDone, setTasks; simpl.
    rewrite E. apply flip_twice.
  - destruct (completeTask_logs e1 reply1 r1 s1 row st)
      as [n1 [sh1 [E1 _]]].
    destruct (completeTask_logs e2 reply2 r2 s2 row'
                (fst (completeTask e1 reply1 r1 s1 row st)))
      as [n2 [sh2 [E2 _]]].
    rewrite E2. simpl. rewrite E1. reflexivity.
Qed.

Lemma completeTask_twice_witness :
  tasks (fst (completeTask (Sample.noon + 1) None "0.zq81mf0c9d"
                (Sample.noon + 1) (Task.with_done true Sample.water)
                (fst (completeTask Sample.noon None "0.a81kq0zm5t"
                        Sample.noon Sample.water Sample.mounted))))
  = tasks Sample.mounted.
Proof.
  apply (completeTask_twice Sample.noon (Sample.noon + 1) None None
           "0.a81kq0zm5t" "0.zq81mf0c9d" Sample.noon (Sample.noon + 1)
           Sample.water (Task.with_done true Sample.water) Sample.mounted).
  reflexivity.
Defined.

(** What the component writes into an entry. *)
Lemma step_entries (a : Action) (st : State) :
  Forall (fun l => status (Log.outcome l) = "done"
                   /\ 0 <= lateMin (Log.outcome l)
                   /\ (lateMin (Log.outcome l) = 0 ->
                       note (Log.outcome l) = "on-time"))
         (logs st) ->
  Forall (fun l => status (Log.outcome l) = "done"
                   /\ 0 <= lateMin (Log.outcome l)
                   /\ (lateMin (Log.outcome l) = 0 ->
                       note (Log.outcome l) = "on-time"))
         (logs (step a st)).
Proof.
  intros H. pose proof (step_logs a st) as Hs.
  destruct a; try (rewrite Hs; exact H). clear Hs. simpl.
  destruct (completeTask_logs end_ reply r stamp row st)
    as [nt [sh [E [_ H0]]]].
  rewrite E. simpl. constructor; [|exact H]. simpl.
  split; [reflexivity|]. split; [apply lateness_nearest|].
  intros Z0. apply H0. apply Z.ltb_ge. lia.
Qed.

(** X16. Every entry of the log of a state the component reaches has the
    status "done" and a lateness of zero or more, and its note is "on-time"
    when the lateness is zero. *)
Theorem reachable_entries (st : State) :
  reachable st ->
  Forall (fun l => status (Log.outcome l) = "done"
                   /\ 0 <= lateMin (Log.outcome l)
                   /\ (lateMin (Log.outcome l) = 0 ->
                       note (Log.outcome l) = "on-time"))
         (logs st).
Proof.
  induction 1 as [now r1 r2|st a R IH En].
  - constructor.
  - now apply step_entries.
Qed.

Lemma reachable_entries_witness :
  Forall (fun l => status (Log.outcome l) = "done"
                   /\ 0 <= lateMin (Log.outcome l)
                   /\ (lateMin (Log.outcome l) = 0 ->
                       note (Log.outcome l) = "on-time"))
         (logs Sample.marked).
Proof.
  apply (reachable_entries Sample.marked).
  apply reach_step.
  - apply reach_step; [apply reach_mount|]. left. reflexivity.
  - left. reflexivity.
Defined.

(* ------------------------------------------------------------------ *)
(** ** Ids *)
(* ------------------------------------------------------------------ *)

Lemma substring_length (n m : nat) (s : string) :
  String.length (substring n m s) = Nat.min m (String.length s - n).
Proof.
  revert n m. induction s as [|c s IH]; intros [|n] [|m]; simpl;
    try reflexivity.
  - now rewrite IH, Nat.sub_0_r.
  - apply IH.
  - apply IH.
Qed.

Lemma substring_of_longer (n m : nat) (p x : string) :
  (n + m <= String.length p)%nat ->
  substring n m (p ++ x) = substring n m p.
Proof.
  revert n m. induction p as [|c p IH]; intros n m H; simpl in H.
  - assert (n = 0%nat) by lia. assert (m = 0%nat) by lia. subst.
    simpl. now destruct x.
  - destruct n as [|n], m as [|m]; simpl; try reflexivity.
    + f_equal. apply (IH 0%nat). lia.
    + apply IH. lia.
    + apply IH. lia.
Qed.

(** X17. An id has at most eight characters: [uid] keeps the third to the
    tenth character of the text drawn, so a text of two characters or fewer
    gives the empty id, and two texts that agree on their first ten characters
    give the same id whatever follows. *)
Theorem uid_keeps_eight_characters (r : string) :
  String.length (uid r) = Nat.min 8 (String.length r - 2)
  /\ ((String.length r <= 2)%nat -> uid r = "")
  /\ (forall p x y, String.length p = 10%nat -> uid (p ++ x) = uid (p ++ y)).
Proof.
  unfold uid, JS.slice. simpl. split; [apply substring_length|]. split.
  - intros H. pose proof (substring_length 2 8 r) as L.
    destruct (substring 2 8 r) as [|c u]; [reflexivity|].
    change (String.length (String c u)) with (S (String.length u)) in L.
    lia.
  - intros p x y H. rewrite !substring_of_longer by lia. reflexivity.
Qed.

(* ------------------------------------------------------------------ *)
(** ** Reminders *)
(* ------------------------------------------------------------------ *)

Section Reminders.
Variables getFullYear getMonth getDate : Z -> Z.
Variable formatTime : Z -> string.

(** X18. A task is never due soon at or after its scheduled time, a longer
    lead only adds to the tasks that are due soon, and every task the
    reminder checker selects at an instant has the "Due soon" chip on a row
    rendered at that instant. *)
Theorem dueSoon_covers_reminders (now : Z) :
  (forall w lead, w <= now -> isDueSoon now w lead = false)
  /\ (forall w lead lead',
        lead <= lead' -> isDueSoon now w lead = true ->
        isDueSoon now w lead' = true)
  /\ (forall tasks tk,
        In tk (upcoming getFullYear getMonth getDate now tasks) ->
        dueSoon now tk = true).
Proof.
  split; [|split].
  - intros w lead H. unfold isDueSoon. apply andb_false_iff. left.
    apply Z.ltb_ge. lia.
  - intros w lead lead' H. unfold isDueSoon.
    rewrite !andb_true_iff, !Z.ltb_lt, !Z.leb_le. lia.
  - intros tasks tk H. unfold upcoming in H. apply filter_In in H.
    destruct H as [_ H]. apply andb_true_iff in H. destruct H as [_ H].
    unfold dueSoon. unfold isDueSoon in *.
    rewrite !andb_true_iff, !Z.ltb_lt, !Z.leb_le in *. lia.
Qed.

(** X19. A tick of the reminder checker shows one notification for each
    task it selects, in the order of the list, when the host has
    notifications and the permission is granted; it shows nothing when the
    permission is anything else, or the host has no notifications. *)
Theorem reminderTick_shows (h : Host) (now : Z) (tasks : list Task.t) :
  (hasWindow h = true -> hasNotification h = true ->
   permission h = PermissionGranted ->
   reminderTick getFullYear getMonth getDate formatTime h now tasks
   = map (fun u => mkShown "Reminder"
                     (Task.title u ++ " at " ++ formatTime (Task.whenISO u)))
         (upcoming getFullYear getMonth getDate now tasks))
  /\ (hasWindow h = false \/ hasNotification h = false
      \/ permission h <> PermissionGranted ->
      reminderTick getFullYear getMonth getDate formatTime h now tasks = []).
Proof.
  unfold reminderTick.
  generalize (upcoming getFullYear getMonth getDate now tasks). intros l.
  split.
  - intros Hw Hn Hp. unfold notify. rewrite Hw, Hn, Hp. simpl.
    induction l as [|u l IH]; simpl; [reflexivity | now rewrite IH].
  - intros H.
    assert (N : forall title body, notify h title body = []).
    { intros title body. unfold notify.
      destruct (hasWindow h), (hasNotification h), (permission h); simpl;
        try reflexivity; destruct H as [H|[H|H]]; congruence. }
    induction l as [|u l IH]; simpl; [reflexivity|]. now rewrite N.
Qed.

(** X20. Of instants spaced by the period of the checker, twenty seconds,
    exactly three in a row select a task that stays not completed, provided
    the minute before its scheduled time is on the same calendar day. *)
Theorem three_reminders (t0 : Z) (tasks : list Task.t) (tk : Task.t) :
  In tk tasks ->
  Task.done tk = false ->
  (forall now, now < Task.whenISO tk <= now + 60000 ->
               sameLocalDay getFullYear getMonth getDate (Task.whenISO tk) now) ->
  exists k0,
    forall k,
      In tk (upcoming getFullYear getMonth getDate
               (t0 + reminderPeriod * k) tasks)
      <-> k0 <= k < k0 + 3.
Proof.
  intros Hin Hdone Hday. unfold reminderPeriod.
  set (d := Task.whenISO tk - t0).
  exists ((d + 19999) / 20000 - 3). intros k.
  pose proof (Z.div_mod (d + 19999) 20000 ltac:(lia)) as E.
  pose proof (Z.mod_pos_bound (d + 19999) 20000 ltac:(lia)) as B.
  unfold upcoming. rewrite filter_In, due_dec. unfold due. split.
  - intros [_ [_ [_ H]]]. subst d. lia.
  - intros H. split; [exact Hin|]. split; [exact Hdone|].
    assert (W : t0 + 20000 * k < Task.whenISO tk <= t0 + 20000 * k + 60000)
      by (subst d; lia).
    split; [now apply Hday | exact W].
Qed.

End Reminders.

Lemma noon_day (now : Z) :
  now < Sample.noon + 30 * 1000 <= now + 60000 ->
  now / UTC.msPerDay = 20759.
Proof.
  unfold Sample.noon, UTC.msPerDay. intros H.
  apply Z.le_antisymm.
  - apply Z.lt_succ_r. apply Z.div_lt_upper_bound; lia.
  - apply Z.div_le_lower_bound; lia.
Qed.

Lemma three_reminders_witness :
  exists k0,
    forall k,
      In Sample.inHalfMinute
         (upcoming UTC.getFullYear UTC.getMonth UTC.getDate
            (Sample.noon + reminderPeriod * k)
            [Sample.inTwoMinutes; Sample.inHalfMinute])
      <-> k0 <= k < k0 + 3.
Proof.
  apply (three_reminders UTC.getFullYear UTC.getMonth UTC.getDate
           Sample.noon [Sample.inTwoMinutes; Sample.inHalfMinute]
           Sample.inHalfMinute).
  - right; left; reflexivity.
  - reflexivity.
  - intros now H. simpl in H. apply noon_day in H.
    unfold sameLocalDay, UTC.getFullYear, UTC.getMonth, UTC.getDate.
    rewrite H. repeat split; reflexivity.
Defined.

(* ------------------------------------------------------------------ *)
(** ** Insights, history and the suggestion *)
(* ------------------------------------------------------------------ *)

Section InsightCounts.
Variables getFullYear getMonth getDate : Z -> Z.

(** X21. Of the counts of the insights card, "completed" is at most
    "scheduled" and "scheduled" at most the number of tasks; a new task that
    is not scheduled today changes neither. *)
Theorem insights_counts (now : Z) (tasks : list Task.t) :
  (WeeklyInsights.completed getFullYear getMonth getDate now tasks
   <= WeeklyInsights.due getFullYear getMonth getDate now tasks)%nat
  /\ (WeeklyInsights.due getFullYear getMonth getDate now tasks
      <= List.length tasks)%nat
  /\ (forall t,
        withinToday getFullYear getMonth getDate now (Task.whenISO t) = false ->
        WeeklyInsights.due getFullYear getMonth getDate now (tasks ++ [t])
        = WeeklyInsights.due getFullYear getMonth getDate now tasks
        /\ WeeklyInsights.completed getFullYear getMonth getDate now
             (tasks ++ [t])
           = WeeklyInsights.completed getFullYear getMonth getDate now tasks).
Proof.
  unfold WeeklyInsights.completed, WeeklyInsights.due,
    WeeklyInsights.todayTasks.
  split; [apply filter_length_le|]. split; [apply filter_length_le|].
  intros t H. rewrite filter_app. simpl. rewrite H, app_nil_r. tauto.
Qed.
End InsightCounts.

Lemma orZero_same (n : Z) : WeeklyInsights.orZero n = n.
Proof. unfold WeeklyInsights.orZero. destruct (n =? 0) eqn:E; [|reflexivity].
  apply Z.eqb_eq in E. now subst. Qed.

Lemma sum_of_lateness (logs : list Log.t) (a : Z) :
  fold_left (fun acc l => acc + WeeklyInsights.orZero (lateMin (Log.outcome l)))
            logs a
  = a + totalLate logs.
Proof.
  revert a. induction logs as [|l logs IH]; intros a; simpl; [lia|].
  rewrite IH, orZero_same. lia.
Qed.

Lemma totalLate_lateEntries (logs : list Log.t) :
  totalLate (lateEntries logs) = totalLate logs.
Proof.
  induction logs as [|l logs IH]; simpl; [reflexivity|].
  unfold WeeklyInsights.truthyNumber.
  destruct (lateMin (Log.outcome l) =? 0) eqn:E; simpl.
  - apply Z.eqb_eq in E. fold (lateEntries logs). lia.
  - fold (lateEntries logs). lia.
Qed.

(** X22. The "Late" figure of the insights card adds up the lateness of the
    thirty most recent entries that have one: an entry on time does not
    count, with thirty late entries or fewer the figure is the lateness of
    the whole log, and once thirty entries are late nothing older counts. *)
Theorem insights_lateness :
  (forall l logs,
      lateMin (Log.outcome l) = 0 ->
      WeeklyInsights.lateness (l :: logs) = WeeklyInsights.lateness logs)
  /\ (forall logs,
        (List.length (lateEntries logs) <= 30)%nat ->
        WeeklyInsights.lateness logs = totalLate logs)
  /\ (forall logs older,
        (30 <= List.length (lateEntries logs))%nat ->
        WeeklyInsights.lateness (logs ++ older) = WeeklyInsights.lateness logs).
Proof.
  split; [|split].
  - intros l logs H. unfold WeeklyInsights.lateness. simpl.
    unfold WeeklyInsights.truthyNumber at 1. now rewrite H.
  - intros logs H. unfold WeeklyInsights.lateness.
    fold (lateEntries logs). rewrite firstn_all2 by exact H.
    rewrite sum_of_lateness, totalLate_lateEntries. lia.
  - intros logs older H. unfold WeeklyInsights.lateness.
    rewrite filter_app. fold (lateEntries logs). fold (lateEntries older).
    rewrite firstn_app.
    replace (30 - List.length (lateEntries logs))%nat with 0%nat by lia.
    simpl. now rewrite app_nil_r.
Qed.

(** X23. The history card shows the twenty entries at the head of the log:
    after any sequence of actions, the rows are the latest twenty
    completions, the latest first, and then the entries that were there. *)
Theorem history_rows (acts : list Action) (st : State) :
  map Log.timestamp (History.rows (logs (run acts st)))
  = firstn 20 (rev (stamps acts) ++ map Log.timestamp (logs st))%list
  /\ (List.length (History.rows (logs (run acts st))) <= 20)%nat.
Proof.
  unfold History.rows. split; [|apply firstn_le_length].
  destruct (run_logs acts st) as [newer [E T]].
  rewrite <- firstn_map, E, map_app, T. reflexivity.
Qed.

Lemma aiSuggestion_late_iff (logs : list Log.t) :
  aiSuggestion logs = suggestLate
  <-> (3 <= List.length
              (filter (fun l => (0 <? lateMin (Log.outcome l))%Z) logs))%nat.
Proof.
  unfold aiSuggestion. destruct logs as [|l logs].
  - simpl. split; [discriminate | lia].
  - cbn [List.length Nat.eqb].
    destruct (3 <=? _)%nat eqn:E.
    + apply Nat.leb_le in E. tauto.
    + apply Nat.leb_gt in E. split; [discriminate | lia].
Qed.

(** X24. The suggestion does not go back: once it is the scheduling tip it
    stays the scheduling tip, and once the log has an entry it is never the
    generic prompt again, whatever the user does next. *)
Theorem suggestion_stays (acts : list Action) (st : State) :
  (aiSuggestion (logs st) = suggestLate ->
   aiSuggestion (logs (run acts st)) = suggestLate)
  /\ (logs st <> [] -> aiSuggestion (logs (run acts st)) <> suggestNoLogs).
Proof.
  destruct (run_logs acts st) as [newer [E _]]. rewrite E. split.
  - rewrite !aiSuggestion_late_iff, filter_app, length_app. lia.
  - intros H. unfold aiSuggestion.
    destruct (newer ++ logs st)%list as [|l ls] eqn:A.
    + apply app_eq_nil in A. tauto.
    + cbn [List.length Nat.eqb]. destruct (3 <=? _)%nat; discriminate.
Qed.

(* ------------------------------------------------------------------ *)
(** ** The browser's store *)
(* ------------------------------------------------------------------ *)

Lemma loadLS_other_key {T U : Type} (parse : string -> option T)
    (write : U -> string) (s : LocalStorage.Storage) (key other : string)
    (v : U) (fallback : T) :
  other <> key ->
  LocalStorage.loadLS parse (LocalStorage.saveLS write other v s)
    key fallback
  = LocalStorage.loadLS parse s key fallback.
Proof.
  intros H.
  unfold LocalStorage.loadLS, LocalStorage.saveLS, LocalStorage.getItem,
    LocalStorage.setItem.
  apply not_eq_sym in H. apply String.eqb_neq in H. now rewrite H.
Qed.

Section StoreFacts.
Context {T : Type}.
Variable parse : string -> option T.
Variable stringify : T -> string.

Lemma saveLS_then_loadLS_local (s : LocalStorage.Storage) (key : string)
    (v fallback : T) :
  stringify v <> "" ->
  parse (stringify v) = Some v ->
  LocalStorage.loadLS parse (LocalStorage.saveLS stringify key v s)
    key fallback
  = v.
Proof.
  intros Hne Hp.
  unfold LocalStorage.loadLS, LocalStorage.saveLS, LocalStorage.getItem,
    LocalStorage.setItem.
  rewrite String.eqb_refl. unfold JS.truthy.
  apply String.eqb_neq in Hne. rewrite Hne. simpl. now rewrite Hp.
Qed.

(** X25. What [saveLS] wrote under a key, [loadLS] reads back from that
    key, provided the text written is not empty and parses to the value. *)
Theorem saveLS_then_loadLS (s : LocalStorage.Storage) (key : string)
    (v fallback : T) :
  stringify v <> "" ->
  parse (stringify v) = Some v ->
  LocalStorage.loadLS parse (LocalStorage.saveLS stringify key v s)
    key fallback
  = v.
Proof.
  apply saveLS_then_loadLS_local.
Qed.

(** X26. [loadLS] gives the fallback for a key the store does not have,
    for an empty text and for a text that does not parse, and [saveLS] under
    one key, of a value of any type, changes nothing of what [loadLS] gives
    for another. *)
Theorem loadLS_falls_back (s : LocalStorage.Storage) (key : string)
    (fallback : T) :
  (LocalStorage.getItem key s = None ->
   LocalStorage.loadLS parse s key fallback = fallback)
  /\ (LocalStorage.getItem key s = Some "" ->
      LocalStorage.loadLS parse s key fallback = fallback)
  /\ (forall raw,
        LocalStorage.getItem key s = Some raw -> parse raw = None ->
        LocalStorage.loadLS parse s key fallback = fallback)
  /\ (forall (U : Type) (write : U -> string) other v,
        other <> key ->
        LocalStorage.loadLS parse (LocalStorage.saveLS write other v s)
          key fallback
        = LocalStorage.loadLS parse s key fallback).
Proof.
  split; [|split; [|split]].
  - unfold LocalStorage.loadLS. now intros ->.
  - unfold LocalStorage.loadLS. now intros ->.
  - unfold LocalStorage.loadLS. intros raw -> ->.
    now destruct (negb (JS.truthy raw)).
  - intros U write other v H. now apply loadLS_other_key.
Qed.
End StoreFacts.

Lemma saveLS_then_loadLS_witness :
  LocalStorage.loadLS SampleCodec.parseBool
    (LocalStorage.saveLS SampleCodec.stringifyBool "flag" false
       SampleCodec.nothing)
    "flag" true
  = false.
Proof.
  apply (saveLS_then_loadLS SampleCodec.parseBool SampleCodec.stringifyBool
           SampleCodec.nothing "flag" false true).
  - discriminate.
  - reflexivity.
Defined.

Section Reload.
Variable parseTasks : string -> option (list Task.t).
Variable stringifyTasks : list Task.t -> string.
Variable parseLogs : string -> option (list Log.t).
Variable stringifyLogs : list Log.t -> string.

(** X27. After the two lists are written to the store, a mount reads them
    back: the state at mount has the task list and the log list that were
    written, an empty search, no category chosen and the modal closed,
    provided each text written is not empty and parses to its list. *)
Theorem mount_after_persist (st : State) (s : LocalStorage.Storage)
    (now : Z) (r1 r2 : string) :
  stringifyTasks (tasks st) <> "" ->
  parseTasks (stringifyTasks (tasks st)) = Some (tasks st) ->
  stringifyLogs (logs st) <> "" ->
  parseLogs (stringifyLogs (logs st)) = Some (logs st) ->
  mountFrom parseTasks parseLogs
    (persist stringifyTasks stringifyLogs st s) now r1 r2
  = mkState (tasks st) (logs st) "" "all" false.
Proof.
  intros T1 T2 L1 L2. unfold mountFrom, persist. f_equal.
  - rewrite loadLS_other_key by discriminate.
    now apply saveLS_then_loadLS_local.
  - now apply saveLS_then_loadLS_local.
Qed.
End Reload.

Lemma mount_after_persist_witness :
  mountFrom SampleCodec.parseTasks SampleCodec.parseLogs
    (persist SampleCodec.stringifyTasks SampleCodec.stringifyLogs
       Sample.marked SampleCodec.nothing)
    Sample.noon "0.a81kq0zm5t" "0.m2x9c4ye7u"
  = mkState (tasks Sample.marked) (logs Sample.marked) "" "all" false.
Proof.
  apply (mount_after_persist SampleCodec.parseTasks SampleCodec.stringifyTasks
           SampleCodec.parseLogs SampleCodec.stringifyLogs
           Sample.marked SampleCodec.nothing
           Sample.noon "0.a81kq0zm5t" "0.m2x9c4ye7u").
  - intros E. vm_compute in E. discriminate.
  - vm_compute. reflexivity.
  - intros E. vm_compute in E. discriminate.
  - vm_compute. reflexivity.
Defined.

(* ------------------------------------------------------------------ *)
(** ** [classNames] *)
(* ------------------------------------------------------------------ *)

Lemma append_empty (a b : string) : a ++ b = "" -> a = "" /\ b = "".
Proof. destruct a; simpl; [tauto | discriminate]. Qed.

Lemma join_empty (sep : string) (parts : list string) :
  Forall (fun x => x <> "") parts -> join sep parts = "" -> parts = [].
Proof.
  destruct parts as [|x rest]; [reflexivity|]. intros H E.
  apply Forall_inv in H. exfalso. apply H.
  simpl in E. destruct rest; [exact E|].
  now apply append_empty in E.
Qed.

Lemma join_app (sep : string) (l1 l2 : list string) :
  l1 <> [] -> l2 <> [] ->
  join sep (l1 ++ l2) = join sep l1 ++ sep ++ join sep l2.
Proof.
  induction l1 as [|x l1 IH]; intros H1 H2; [contradiction|].
  destruct l1 as [|y l1].
  - simpl. destruct l2; [contradiction | reflexivity].
  - change (join sep ((x :: y :: l1) ++ l2))
      with (x ++ sep ++ join sep ((y :: l1) ++ l2)).
    rewrite IH by (auto; discriminate).
    change (join sep (x :: y :: l1)) with (x ++ sep ++ join sep (y :: l1)).
    now rewrite !append_assoc.
Qed.

Lemma kept_texts (a : list ClassValue) :
  Forall (fun x => x <> "") (map classText (filter Boolean a)).
Proof.
  induction a as [|v a IH]; simpl; [constructor|].
  destruct (Boolean v) eqn:B; [|exact IH]. simpl. constructor; [|exact IH].
  destruct v as [s|[|]|]; simpl in *; try discriminate.
  unfold JS.truthy in B. apply negb_true_iff in B.
  now apply String.eqb_neq in B.
Qed.

Lemma classNames_empty_iff (a : list ClassValue) :
  classNames a = "" <-> filter Boolean a = [].
Proof.
  unfold classNames. split.
  - intros E. apply join_empty in E; [|apply kept_texts].
    now apply map_eq_nil in E.
  - now intros ->.
Qed.

(** X28. [classNames] leaves out every falsy argument, wherever it stands;
    its result is empty exactly when every argument is falsy; and the result
    for two lists of arguments one after the other is the two results with
    one space between them, or the one that is not empty. *)
Theorem classNames_joins (a b : list ClassValue) :
  (forall v, Boolean v = false ->
             classNames (a ++ v :: b) = classNames (a ++ b))
  /\ (classNames a = "" <-> Forall (fun v => Boolean v = false) a)
  /\ (classNames a <> "" -> classNames b <> "" ->
      classNames (a ++ b) = classNames a ++ " " ++ classNames b)
  /\ (classNames a = "" -> classNames (a ++ b) = classNames b)
  /\ (classNames b = "" -> classNames (a ++ b) = classNames a).
Proof.
  split; [|split; [|split; [|split]]].
  - intros v H. unfold classNames. rewrite !filter_app. simpl. now rewrite H.
  - rewrite classNames_empty_iff. split.
    + intros E. apply Forall_forall. intros v Hv.
      destruct (Boolean v) eqn:B; [|reflexivity].
      assert (Hin : In v (filter Boolean a)) by (apply filter_In; tauto).
      rewrite E in Hin. contradiction.
    + intros H. induction a as [|v a IH]; simpl; [reflexivity|].
      rewrite (Forall_inv H). apply IH. now apply Forall_inv_tail in H.
  - intros Ha Hb. unfold classNames. rewrite filter_app, map_app.
    apply join_app.
    + intros E. apply map_eq_nil in E. apply Ha. now apply classNames_empty_iff.
    + intros E. apply map_eq_nil in E. apply Hb. now apply classNames_empty_iff.
  - intros Ha. apply classNames_empty_iff in Ha.
    unfold classNames. now rewrite filter_app, Ha.
  - intros Hb. apply classNames_empty_iff in Hb.
    unfold classNames. now rewrite filter_app, Hb, app_nil_r.
Qed.

(* ------------------------------------------------------------------ *)
(** ** Chips *)
(* ------------------------------------------------------------------ *)

Lemma labelOf_offered (table : list Option_) (k : string) :
  In k (map key table) -> labelOf table k <> None.
Proof.
  unfold labelOf. induction table as [|c table IH]; simpl; [contradiction|].
  intros [E|H].
  - apply String.eqb_eq in E. rewrite E. discriminate.
  - destruct (key c =? k)%string; [discriminate | now apply IH].
Qed.

Lemma step_labels (a : Action) (st : State) :
  offeredAction a ->
  Forall hasLabels (tasks st) -> Forall hasLabels (tasks (step a st)).
Proof.
  intros Ha H. destruct a; simpl; try exact H.
  - unfold submit. destruct (negb _); [exact H|].
    destruct (Form.when f); [|exact H]. simpl.
    apply Forall_app. split; [exact H|]. constructor; [|constructor].
    destruct Ha as [Hc Hr]. split; simpl; now apply labelOf_offered.
  - apply Forall_forall. intros t Ht. apply in_map_iff in Ht.
    destruct Ht as [u [<- Hu]]. rewrite Forall_forall in H.
    specialize (H u Hu). now destruct (Task.id u =? Task.id row)%string.
  - apply Forall_forall. intros t Ht. apply filter_In in Ht.
    rewrite Forall_forall in H. now apply H.
  - rewrite completeTask_tasks.
    apply Forall_forall. intros t Ht. apply in_map_iff in Ht.
    destruct Ht as [u [<- Hu]]. rewrite Forall_forall in H.
    specialize (H u Hu). now destruct (Task.id u =? Task.id row)%string.
Qed.

Lemma run_labels (acts : list Action) (st : State) :
  Forall offeredAction acts ->
  Forall hasLabels (tasks st) -> Forall hasLabels (tasks (run acts st)).
Proof.
  revert st. induction acts as [|a acts IH]; intros st Ha H; simpl.
  - exact H.
  - apply IH; [now apply Forall_inv_tail in Ha|].
    apply step_labels; [now apply Forall_inv in Ha | exact H].
Qed.

(** X29. The chips of a row are never blank: from a first launch, as long
    as each form submitted holds a category and a repeat mode its selects
    offer, every task has a category label and a repeat label. *)
Theorem chips_have_labels (acts : list Action) (now : Z) (r1 r2 : string) :
  Forall offeredAction acts ->
  Forall hasLabels (tasks (run acts (initialState None None now r1 r2))).
Proof.
  intros H. apply run_labels; [exact H|].
  simpl. repeat constructor; discriminate.
Qed.

Lemma chips_have_labels_witness :
  Forall hasLabels
    (tasks (run [OpenAdd; Submit Sample.walk "0.zq81mf0c9d" Sample.noon]
                Sample.mounted)).
Proof.
  apply (chips_have_labels
           [OpenAdd; Submit Sample.walk "0.zq81mf0c9d" Sample.noon]
           Sample.noon "0.k3v9x2ab7f" "0.p07qmz4e1c").
  constructor; [exact I|]. constructor; [|constructor].
  split; simpl; auto.
Defined.
